(** * MEDI-360: the rule-based symptom classifier

    A shallow embedding of [MedicalAIService]
    (medi360-backend/services/medicalAI.service.js) and of the chat
    controller's [extractSymptoms] helper, with the properties of the
    classifier proved over the embedding.

    JavaScript strings are modelled as [string] (sequences of 8-bit
    characters): [toLowerCase] folds the ASCII letters and [trim] strips the
    ASCII white space characters; the knowledge table, the keyword lists and
    the symptom vocabulary are all ASCII.  JavaScript numbers that count or
    score are modelled as [Z]. *)

From Stdlib Require Import String Ascii List ZArith QArith Bool Lia.
From Stdlib Require Import Sorting.Sorted Sorting.Permutation.
Import ListNotations.

Open Scope string_scope.
Open Scope Z_scope.
Open Scope list_scope.

(** ** The JavaScript library functions the service relies on *)

Module Js.

(** [String.prototype.toLowerCase], on the ASCII letters. *)
Definition lowerChar (c : ascii) : ascii :=
  let n := nat_of_ascii c in
  if (Nat.leb 65 n && Nat.leb n 90)%bool then ascii_of_nat (n + 32) else c.

Fixpoint toLowerCase (s : string) : string :=
  match s with
  | EmptyString => EmptyString
  | String c s' => String (lowerChar c) (toLowerCase s')
  end.

(** [String.prototype.trim]: white space is removed from both ends. *)
Definition isWhiteSpace (c : ascii) : bool :=
  let n := nat_of_ascii c in
  (Nat.leb 9 n && Nat.leb n 13 || Nat.eqb n 32)%bool.

Fixpoint trimStart (s : string) : string :=
  match s with
  | EmptyString => EmptyString
  | String c s' => if isWhiteSpace c then trimStart s' else s
  end.

Fixpoint trimEnd (s : string) : string :=
  match s with
  | EmptyString => EmptyString
  | String c s' =>
      match trimEnd s' with
      | EmptyString =>
        if isWhiteSpace c then EmptyString else String c EmptyString
      | t => String c t
      end
  end.

Definition trim (s : string) : string := trimEnd (trimStart s).

(** [s.includes(t)]: [t] occurs in [s] at some position. *)
Fixpoint includes (s t : string) : bool :=
  (String.prefix t s
   || match s with
      | EmptyString => false
      | String _ s' => includes s' t
      end)%bool.

(** [Array.prototype.some]. *)
Definition some {A : Type} (l : list A) (p : A -> bool) : bool := existsb p l.

(** [Array.prototype.filter]. *)
Definition filter {A : Type} (l : list A) (p : A -> bool) : list A :=
  List.filter p l.

(** [Array.prototype.forEach] with the variables the callback assigns to
    threaded as a state [S]: the callback is run on each element in order
    and whatever it returns (the [R] component) is discarded. *)
Fixpoint forEach {S A R : Type} (l : list A) (callback : S -> A -> R * S)
    (st : S) : S :=
  match l with
  | [] => st
  | x :: l' => forEach l' callback (snd (callback st x))
  end.

(** [Array.prototype.push] of one element. *)
Definition push {A : Type} (arr : list A) (x : A) : list A := arr ++ [x].

(** [Array.prototype.sort] with a comparator: [x] is placed after [y] when
    [compareFn x y > 0].  The sort is stable (ECMAScript 2019), which an
    insertion sort from the right reproduces. *)
Fixpoint insertSorted {A : Type} (compareFn : A -> A -> Z) (x : A)
    (l : list A) : list A :=
  match l with
  | [] => [x]
  | y :: l' =>
      if 0 <? compareFn x y then y :: insertSorted compareFn x l'
      else x :: l
  end.

Definition sort {A : Type} (l : list A) (compareFn : A -> A -> Z) : list A :=
  fold_right (insertSorted compareFn) [] l.

(** [arr.slice(0, n)]. *)
Definition slice0 {A : Type} (l : list A) (n : nat) : list A := firstn n l.

(** A [Map] keeps its keys in insertion order; [set] on a key that is
    present replaces the value where it stands. *)
Definition Map (V : Type) : Type := list (string * V).

Fixpoint get {V : Type} (m : Map V) (k : string) : option V :=
  match m with
  | [] => None
  | (k', v) :: m' => if String.eqb k' k then Some v else get m' k
  end.

Fixpoint set {V : Type} (m : Map V) (k : string) (v : V) : Map V :=
  match m with
  | [] => [(k, v)]
  | (k', v') :: m' =>
      if String.eqb k' k then (k', v) :: m' else (k', v') :: set m' k v
  end.

Definition entries {V : Type} (m : Map V) : list (string * V) := m.

End Js.

(** ** Data model *)

Inductive Severity : Type := Low | Moderate | High | Emergency.

(** The order low < moderate < high < emergency on tiers. *)
Definition tierRank (s : Severity) : Z :=
  match s with Low => 0 | Moderate => 1 | High => 2 | Emergency => 3 end.

Definition tierLe (a b : Severity) : Prop := tierRank a <= tierRank b.

Inductive Likelihood : Type := LikelihoodHigh | LikelihoodModerate.

(** One entry of the knowledge table. *)
Module Entry.
Record t : Type := mk {
  categories : list string;
  severity : Severity;
  emergency : bool;
  relatedConditions : list string
}.
End Entry.

(** The caller's health profile, as far as the service reads it; a field
    that is missing on the object is [None]. *)
Record HealthProfile : Type := {
  age : option Z;
  knownConditions : option (list string);
  currentMedications : option (list string)
}.

(** A message of the conversation history. *)
Record Message : Type := { role : string; content : string }.

Record Condition : Type := { condition : string; likelihood : Likelihood }.

(** The object [analyzeSymptoms] returns.  The emergency response has
    [urgentAction] and [emergencyNumber] and no [possibleConditions]; the
    regular response has [possibleConditions] only. *)
Module Result.
Record t : Type := mk {
  severity : Severity;
  emergencyDetected : bool;
  identifiedSymptoms : list string;
  urgentAction : option string;
  emergencyNumber : option string;
  possibleConditions : option (list Condition);
  recommendations : list string;
  disclaimer : string
}.
End Result.

(** ** The service *)

Definition symptomDatabase : list (string * Entry.t) :=
  [ ("chest pain",
     Entry.mk ["cardiovascular"] High true
       ["heart attack"; "angina"; "pulmonary embolism"]);
    ("shortness of breath",
     Entry.mk ["respiratory"; "cardiovascular"] Moderate false
       ["asthma"; "COPD"; "anxiety"]);
    ("irregular heartbeat",
     Entry.mk ["cardiovascular"] Moderate false
       ["arrhythmia"; "atrial fibrillation"]);
    ("severe headache",
     Entry.mk ["neurological"] Moderate false
       ["migraine"; "tension headache"; "cluster headache"]);
    ("sudden confusion",
     Entry.mk ["neurological"] High true
       ["stroke"; "seizure"; "hypoglycemia"]);
    ("dizziness",
     Entry.mk ["neurological"; "cardiovascular"] Low false
       ["vertigo"; "low blood pressure"; "dehydration"]);
    ("cough",
     Entry.mk ["respiratory"] Low false
       ["common cold"; "bronchitis"; "pneumonia"]);
    ("fever",
     Entry.mk ["general"; "infection"] Moderate false
       ["infection"; "flu"; "viral illness"]);
    ("difficulty breathing",
     Entry.mk ["respiratory"] High true
       ["asthma attack"; "pneumonia"; "allergic reaction"]);
    ("nausea",
     Entry.mk ["gastrointestinal"] Low false
       ["gastritis"; "food poisoning"; "pregnancy"]);
    ("abdominal pain",
     Entry.mk ["gastrointestinal"] Moderate false
       ["gastritis"; "appendicitis"; "kidney stones"]);
    ("vomiting",
     Entry.mk ["gastrointestinal"] Moderate false
       ["gastroenteritis"; "food poisoning"; "migraine"]);
    ("fatigue",
     Entry.mk ["general"] Low false
       ["anemia"; "depression"; "sleep disorder"]);
    ("body aches",
     Entry.mk ["general"] Low false
       ["flu"; "viral infection"; "fibromyalgia"]);
    ("loss of consciousness",
     Entry.mk ["neurological"] Emergency true
       ["seizure"; "stroke"; "cardiac arrest"]) ].

Definition emergencySymptoms : list string :=
  [ "chest pain"; "difficulty breathing"; "sudden confusion";
    "loss of consciousness"; "severe bleeding"; "stroke symptoms";
    "severe allergic reaction"; "suicidal thoughts" ].

(** [s => s.toLowerCase().trim()] *)
Definition normalizePhrase (s : string) : string := Js.trim (Js.toLowerCase s).

(** [symptoms.map(s => s.toLowerCase().trim())] *)
Definition normalize (symptoms : list string) : list string :=
  map normalizePhrase symptoms.

Definition checkEmergency (symptoms : list string) : bool :=
  Js.some symptoms (fun symptom =>
    Js.some emergencySymptoms (fun emergency =>
      Js.includes symptom emergency)).

Definition emergencyRecommendations : list string :=
  [ "🚨 Call emergency services (108) immediately";
    "Do not attempt to drive yourself";
    "Stay calm and follow dispatcher instructions";
    "Have someone stay with you until help arrives";
    "If alone, unlock your front door for emergency responders" ].

Definition generateEmergencyResponse (symptoms : list string) : Result.t :=
  {| Result.severity := Emergency;
     Result.emergencyDetected := true;
     Result.identifiedSymptoms := symptoms;
     Result.urgentAction := Some "CALL EMERGENCY SERVICES IMMEDIATELY";
     Result.emergencyNumber := Some "108 (India) or local emergency number";
     Result.possibleConditions := None;
     Result.recommendations := emergencyRecommendations;
     Result.disclaimer :=
       "This is a medical emergency. Please seek immediate professional medical help." |}.

(** The loop over [Object.entries(this.symptomDatabase)], generalised over
    the entries still to visit. *)
Fixpoint findIn (table : list (string * Entry.t)) (symptom : string)
    : option Entry.t :=
  match table with
  | [] => None
  | (key, value) :: rest =>
      if (Js.includes symptom key || Js.includes key symptom)%bool
      then Some value
      else findIn rest symptom
  end.

Definition findSymptomData (symptom : string) : option Entry.t :=
  findIn symptomDatabase symptom.

(** The two variables the scoring callback assigns to. *)
Record Scoring : Type := { maxSeverity : Severity; severityScore : Z }.

(** The callback of the [forEach] in [calculateSeverity].  Its
    [return 'emergency'] leaves the callback, not [calculateSeverity]: the
    value is what the callback returns to [forEach]. *)
Definition scoreSymptom (st : Scoring) (symptom : string)
    : option Severity * Scoring :=
  match findSymptomData symptom with
  | Some symptomData =>
      match Entry.severity symptomData with
      | Emergency => (Some Emergency, st)
      | High =>
          (None, {| maxSeverity := High;
                    severityScore := severityScore st + 3 |})
      | Moderate =>
          (None, {| maxSeverity :=
                      match maxSeverity st with
                      | Low => Moderate
                      | other => other
                      end;
                    severityScore := severityScore st + 2 |})
      | Low =>
          (None, {| maxSeverity := maxSeverity st;
                    severityScore := severityScore st + 1 |})
      end
  | None => (None, st)
  end.

(** [xs && xs.length > 0] on a field that may be missing. *)
Definition nonEmpty {A : Type} (xs : option (list A)) : bool :=
  match xs with
  | Some (_ :: _) => true
  | _ => false
  end.

(** [healthProfile.age > 65]; a missing age compares false. *)
Definition olderThan65 (a : option Z) : bool :=
  match a with
  | Some n => 65 <? n
  | None => false
  end.

(** The risk-factor adjustment of the score. *)
Definition adjustForProfile (healthProfile : option HealthProfile)
    (severityScore : Z) : Z :=
  match healthProfile with
  | Some hp =>
      let severityScore :=
        if nonEmpty (knownConditions hp) then severityScore + 1
        else severityScore in
      if olderThan65 (age hp) then severityScore + 1 else severityScore
  | None => severityScore
  end.

Definition calculateSeverity (symptoms : list string)
    (healthProfile : option HealthProfile) : Severity :=
  let st :=
    Js.forEach symptoms scoreSymptom
      {| maxSeverity := Low; severityScore := 0 |} in
  let severityScore := adjustForProfile healthProfile (severityScore st) in
  if 5 <=? severityScore then High
  else if 3 <=? severityScore then Moderate
  else maxSeverity st.

(** The inner callback of [identifyPossibleConditions]: one more occurrence
    of [condition] in the map. *)
Definition countCondition (conditionsMap : Js.Map Z) (condition : string)
    : unit * Js.Map Z :=
  let count :=
    match Js.get conditionsMap condition with
    | Some n => n
    | None => 0
    end in
  (tt, Js.set conditionsMap condition (count + 1)).

(** The outer callback: the related conditions of the entry found for
    [symptom], if one is found, are counted. *)
Definition countSymptom (conditionsMap : Js.Map Z) (symptom : string)
    : unit * Js.Map Z :=
  match findSymptomData symptom with
  | Some symptomData =>
      (tt, Js.forEach (Entry.relatedConditions symptomData) countCondition
             conditionsMap)
  | None => (tt, conditionsMap)
  end.

(** The comparator [(a, b) => b[1] - a[1]]. *)
Definition byFrequency (a b : string * Z) : Z := snd b - snd a.

Definition toCondition (e : string * Z) : Condition :=
  {| condition := fst e;
     likelihood := if 1 <? snd e then LikelihoodHigh else LikelihoodModerate |}.

Definition identifyPossibleConditions (symptoms : list string)
    : list Condition :=
  let conditionsMap := Js.forEach symptoms countSymptom [] in
  Js.slice0
    (map toCondition (Js.sort (Js.entries conditionsMap) byFrequency)) 5.

Definition generateRecommendations (symptoms : list string)
    (severity : Severity) (healthProfile : option HealthProfile)
    (possibleConditions : list Condition) : list string :=
  let recommendations : list string := [] in
  let recommendations :=
    match severity with
    | High =>
        let r := Js.push recommendations
                   "Consult a healthcare provider within 24 hours" in
        let r := Js.push r "Monitor your symptoms closely" in
        Js.push r "Avoid strenuous activities"
    | Moderate =>
        let r := Js.push recommendations
                   "Consider scheduling a doctor appointment" in
        Js.push r "Track your symptoms over the next few days"
    | _ =>
        let r := Js.push recommendations
                   "Monitor symptoms; they may resolve on their own" in
        Js.push r "Maintain proper rest and hydration"
    end in
  let recommendations :=
    if Js.some symptoms (fun s => Js.includes s "fever") then
      let r := Js.push recommendations "Stay hydrated and rest" in
      let r := Js.push r "Take temperature regularly" in
      Js.push r "Use over-the-counter fever reducers if needed"
    else recommendations in
  let recommendations :=
    if Js.some symptoms (fun s => Js.includes s "cough") then
      let r := Js.push recommendations "Stay hydrated with warm fluids" in
      let r := Js.push r "Use a humidifier if available" in
      Js.push r "Avoid irritants like smoke"
    else recommendations in
  match healthProfile with
  | Some hp =>
      let recommendations :=
        if nonEmpty (knownConditions hp) then
          let r := Js.push recommendations
                     "Consider how symptoms may relate to your known conditions" in
          Js.push r "Contact your regular healthcare provider"
        else recommendations in
      if nonEmpty (currentMedications hp) then
        let r := Js.push recommendations
                   "Check for potential drug interactions" in
        Js.push r "Consult pharmacist if taking new medications"
      else recommendations
  | None => recommendations
  end.

Definition getDisclaimer : string :=
  "This system provides general medical guidance and is not a substitute for professional medical advice, diagnosis, or treatment. Always seek the advice of your physician or other qualified health provider with any questions you may have regarding a medical condition.".

(** [analyzeSymptoms(symptoms, healthProfile = null,
    conversationHistory = [])] *)
Definition analyzeSymptoms (symptoms : list string)
    (healthProfile : option HealthProfile)
    (conversationHistory : list Message) : Result.t :=
  let normalizedSymptoms := normalize symptoms in
  let emergencyDetected := checkEmergency normalizedSymptoms in
  if emergencyDetected then generateEmergencyResponse normalizedSymptoms
  else
    let severity := calculateSeverity normalizedSymptoms healthProfile in
    let possibleConditions := identifyPossibleConditions normalizedSymptoms in
    let recommendations :=
      generateRecommendations normalizedSymptoms severity healthProfile
        possibleConditions in
    {| Result.severity := severity;
       Result.emergencyDetected := false;
       Result.identifiedSymptoms := normalizedSymptoms;
       Result.urgentAction := None;
       Result.emergencyNumber := None;
       Result.possibleConditions := Some possibleConditions;
       Result.recommendations := recommendations;
       Result.disclaimer := getDisclaimer |}.

(** ** The chat controller's symptom extraction
    (medi360-backend/controllers/healthProfile.controller.js) *)

Definition commonSymptoms : list string :=
  [ "fever"; "headache"; "pain"; "cough"; "nausea"; "vomiting"; "dizzy";
    "tired"; "chest pain"; "rash" ].

Definition extractSymptoms (message : string) : list string :=
  Js.filter commonSymptoms (fun s => Js.includes (Js.toLowerCase message) s).

(** ** Specification vocabulary *)

(** [t] occurs in [s]: the meaning of "contains as a substring". *)
Definition Substring (t s : string) : Prop :=
  exists pre post, s = (pre ++ t ++ post)%string.

(** [l1] is [l2] with some elements left out, the order kept. *)
Inductive Subsequence {A : Type} : list A -> list A -> Prop :=
| Subsequence_nil : Subsequence [] []
| Subsequence_skip : forall x l1 l2,
    Subsequence l1 l2 -> Subsequence l1 (x :: l2)
| Subsequence_keep : forall x l1 l2,
    Subsequence l1 l2 -> Subsequence (x :: l1) (x :: l2).

(** The fixed blocks of recommendation strings. *)
Definition severityBlock (s : Severity) : list string :=
  match s with
  | High =>
      [ "Consult a healthcare provider within 24 hours";
        "Monitor your symptoms closely";
        "Avoid strenuous activities" ]
  | Moderate =>
      [ "Consider scheduling a doctor appointment";
        "Track your symptoms over the next few days" ]
  | _ =>
      [ "Monitor symptoms; they may resolve on their own";
        "Maintain proper rest and hydration" ]
  end.

Definition feverBlock : list string :=
  [ "Stay hydrated and rest";
    "Take temperature regularly";
    "Use over-the-counter fever reducers if needed" ].

Definition coughBlock : list string :=
  [ "Stay hydrated with warm fluids";
    "Use a humidifier if available";
    "Avoid irritants like smoke" ].

Definition conditionsBlock : list string :=
  [ "Consider how symptoms may relate to your known conditions";
    "Contact your regular healthcare provider" ].

Definition medicationsBlock : list string :=
  [ "Check for potential drug interactions";
    "Consult pharmacist if taking new medications" ].

(** The known conditions and the medications of an optional profile. *)
Definition profileConditions (hp : option HealthProfile)
    : option (list string) :=
  match hp with
  | Some h => knownConditions h
  | None => None
  end.

Definition profileMedications (hp : option HealthProfile)
    : option (list string) :=
  match hp with
  | Some h => currentMedications h
  | None => None
  end.

(** What the scoring loop maintains: the score is at least what the highest
    tier seen so far has contributed, and that tier is never "emergency". *)
Definition ScoringInv (st : Scoring) : Prop :=
  match maxSeverity st with
  | Low => 0 <= severityScore st
  | Moderate => 2 <= severityScore st
  | High => 3 <= severityScore st
  | Emergency => False
  end.

(** The related-condition names met while the symptoms are visited, in the
    order met: one run of names for each phrase an entry is found for. *)
Definition encounteredConditions (symptoms : list string) : list string :=
  flat_map
    (fun s =>
       match findSymptomData s with
       | Some d => Entry.relatedConditions d
       | None => []
       end)
    symptoms.

(** The distinct names of a sequence, in the order of their first
    occurrence. *)
Fixpoint firstEncounter (names : list string) : list string :=
  match names with
  | [] => []
  | c :: rest =>
      c :: List.filter (fun x => negb (String.eqb x c)) (firstEncounter rest)
  end.

(** How often a name occurs in a sequence of names. *)
Definition frequency (names : list string) (c : string) : Z :=
  Z.of_nat (count_occ string_dec names c).

(** For how many of the phrases the entry found lists the condition [c]. *)
Definition listingCount (symptoms : list string) (c : string) : Z :=
  Z.of_nat
    (length
       (List.filter
          (fun s =>
             match findSymptomData s with
             | Some d => existsb (String.eqb c) (Entry.relatedConditions d)
             | None => false
             end)
          symptoms)).

(** Membership in a list of names, as a test. *)
Definition mem (x : string) (l : list string) : bool :=
  existsb (String.eqb x) l.

(** The value stored under a key, 0 when there is none. *)
Definition getOr0 (m : Js.Map Z) (k : string) : Z :=
  match Js.get m k with
  | Some v => v
  | None => 0
  end.

(** Descending frequency. *)
Definition Descending (a b : string * Z) : Prop := snd a >= snd b.

(** The lookup for the normalized phrase [p] finds an entry of tier [t]. *)
Definition matchesTier (p : string) (t : Severity) : Prop :=
  exists d,
    findSymptomData (normalizePhrase p) = Some d /\ Entry.severity d = t.

(** A list of a profile is there and has an element. *)
Definition hasEntries (xs : option (list string)) : Prop :=
  exists c cs, xs = Some (c :: cs).

(** [l] is [block] when [present] holds and empty when it does not. *)
Definition optionalBlock (present : Prop) (block l : list string) : Prop :=
  (present /\ l = block) \/ (~ present /\ l = []).

(** [block] stands in [l] as one run. *)
Definition containsBlock (block l : list string) : Prop :=
  exists pre post, l = pre ++ block ++ post.

(** [mentions symptoms w]: some phrase of [symptoms] contains [w]. *)
Definition mentions (symptoms : list string) (w : string) : Prop :=
  exists p, In p symptoms /\ Substring w p.

(** ** The conversational response of the service *)

Definition newline : string := String (ascii_of_nat 10) EmptyString.

Definition doubleQuote : string := String (ascii_of_nat 34) EmptyString.

(** [String.prototype.toUpperCase], on the ASCII letters. *)
Definition upperChar (c : ascii) : ascii :=
  let n := nat_of_ascii c in
  if (Nat.leb 97 n && Nat.leb n 122)%bool then ascii_of_nat (n - 32) else c.

Fixpoint toUpperCase (s : string) : string :=
  match s with
  | EmptyString => EmptyString
  | String c s' => String (upperChar c) (toUpperCase s')
  end.

(** The strings the tiers and likelihoods are in the JavaScript objects. *)
Definition severityName (s : Severity) : string :=
  match s with
  | Low => "low"
  | Moderate => "moderate"
  | High => "high"
  | Emergency => "emergency"
  end.

Definition likelihoodName (l : Likelihood) : string :=
  match l with
  | LikelihoodHigh => "high"
  | LikelihoodModerate => "moderate"
  end.

(** [`${x}`] on a property that may be missing. *)
Definition interpolate (x : option string) : string :=
  match x with
  | Some s => s
  | None => "undefined"
  end.

(** [response += `• ${rec}\n`] *)
Definition recommendationLine (response rec : string) : unit * string :=
  (tt, (response ++ "• " ++ rec ++ newline)%string).

(** [response += `• ${pc.condition} (${pc.likelihood} likelihood)\n`] *)
Definition conditionLine (response : string) (pc : Condition)
    : unit * string :=
  (tt, (response ++ "• " ++ condition pc ++ " ("
        ++ likelihoodName (likelihood pc) ++ " likelihood)" ++ newline)%string).

(** [generateResponse(analysis, healthProfile = null)] *)
Definition generateResponse (analysis : Result.t)
    (healthProfile : option HealthProfile) : string :=
  let response := EmptyString in
  if Result.emergencyDetected analysis then
    let response :=
      ("🚨 **MEDICAL EMERGENCY DETECTED**" ++ newline ++ newline)%string in
    let response :=
      (response ++ interpolate (Result.urgentAction analysis)
       ++ newline ++ newline)%string in
    let response :=
      (response ++ "**Emergency Number:** "
       ++ interpolate (Result.emergencyNumber analysis)
       ++ newline ++ newline)%string in
    let response := (response ++ "**Immediate Actions:**" ++ newline)%string in
    Js.forEach (Result.recommendations analysis) recommendationLine response
  else
    let response :=
      (response ++ "I've analyzed your symptoms. Here's what I found:"
       ++ newline ++ newline)%string in
    let response :=
      (response ++ "**Severity Level:** "
       ++ toUpperCase (severityName (Result.severity analysis))
       ++ newline ++ newline)%string in
    let response :=
      match Result.possibleConditions analysis with
      | Some (pc :: pcs) =>
          let response :=
            (response ++ "**Possible Conditions:**" ++ newline)%string in
          let response := Js.forEach (pc :: pcs) conditionLine response in
          (response ++ newline)%string
      | _ => response
      end in
    let response := (response ++ "**Recommendations:**" ++ newline)%string in
    let response :=
      Js.forEach (Result.recommendations analysis) recommendationLine
        response in
    (response ++ newline ++ "**Important:** "
     ++ Result.disclaimer analysis)%string.

(** ** The chat controller's helpers
    (medi360-backend/controllers/healthProfile.controller.js) *)

Definition localEmergencyText : string :=
  ("🚨 MEDICAL EMERGENCY" ++ newline
   ++ newline
   ++ "Possible heart issue detected." ++ newline
   ++ newline
   ++ "🚑 ACTION PLAN" ++ newline
   ++ "• Call 108/911 immediately." ++ newline
   ++ "• Do not drive yourself." ++ newline
   ++ "• Sit down and rest." ++ newline
   ++ newline
   ++ "---" ++ newline
   ++ "Please treat this as an emergency.")%string.

(** The text before and the text after the echoed message. *)
Definition localAdviceHead : string :=
  ("🩺 SYMPTOM ANALYSIS" ++ newline
   ++ "I have noted your symptoms: " ++ doubleQuote)%string.

Definition localAdviceTail : string :=
  (doubleQuote ++ "." ++ newline
   ++ newline
   ++ "💊 GENERAL ADVICE" ++ newline
   ++ "• Rest: Allow your body to recover." ++ newline
   ++ "• Hydrate: Drink plenty of water." ++ newline
   ++ "• Monitor: Watch for fever or worsening pain." ++ newline
   ++ newline
   ++ "⚠️ WHEN TO SEE A DOCTOR" ++ newline
   ++ "• If symptoms persist > 24 hours." ++ newline
   ++ "• If pain becomes severe." ++ newline
   ++ newline
   ++ "---" ++ newline
   ++ "Disclaimer: This is an AI assessment.")%string.

Definition generateSmartLocalResponse (message : string) : string :=
  let msg := Js.toLowerCase message in
  if (Js.includes msg "chest"
      || Js.includes msg "pain" && Js.includes msg "left")%bool
  then localEmergencyText
  else (localAdviceHead ++ message ++ localAdviceTail)%string.

Definition detectSeverity (text : string) : Severity :=
  let lower := Js.toLowerCase text in
  if (Js.includes lower "emergency" || Js.includes lower "call 911"
      || Js.includes lower "call 108")%bool
  then Emergency
  else if (Js.includes lower "seek medical"
           || Js.includes lower "consult a doctor")%bool
  then Moderate
  else Low.

Definition Severity_eqb (a b : Severity) : bool :=
  match a, b with
  | Low, Low | Moderate, Moderate | High, High | Emergency, Emergency => true
  | _, _ => false
  end.

(** [detectSeverity(text) === 'emergency'] *)
Definition detectEmergency (text : string) : bool :=
  Severity_eqb (detectSeverity text) Emergency.

(** ** The chat session model (models/ChatSession.model.js) *)

Module Metadata.
Record t : Type := mk {
  severity : option Severity;
  identifiedSymptoms : option (list string)
}.
End Metadata.

(** A stored message; the time stamp is in milliseconds. *)
Module ChatMessage.
Record t : Type := mk {
  role : string;
  content : string;
  timestamp : Z;
  metadata : option Metadata.t
}.
End ChatMessage.

(** [Set.prototype.add] on a set kept in insertion order. *)
Definition setAdd (set : list string) (x : string) : unit * list string :=
  (tt, if existsb (String.eqb x) set then set else set ++ [x]).

(** [Array.prototype.includes] on an array of tiers. *)
Definition includesTier (severities : list Severity) (t : Severity) : bool :=
  existsb (Severity_eqb t) severities.

(** [arr.slice(start)]: a negative [start] counts from the end. *)
Definition sliceFrom {A : Type} (l : list A) (start : Z) : list A :=
  let len := Z.of_nat (length l) in
  let k := if start <? 0 then Z.max (len + start) 0 else Z.min start len in
  skipn (Z.to_nat k) l.

Module ChatSession.

Record Analysis : Type := mkAnalysis {
  symptoms : list string;
  overallSeverity : Severity;
  messageCount : Z
}.

(** The callback of [this.messages.forEach] in [analyzeSymptoms]; the state
    is the set [symptoms] and the array [severities]. *)
Definition collect (st : list string * list Severity) (msg : ChatMessage.t)
    : unit * (list string * list Severity) :=
  let symptoms := fst st in
  let severities := snd st in
  let symptoms :=
    match ChatMessage.metadata msg with
    | Some md =>
        match Metadata.identifiedSymptoms md with
        | Some found => Js.forEach found setAdd symptoms
        | None => symptoms
        end
    | None => symptoms
    end in
  let severities :=
    match ChatMessage.metadata msg with
    | Some md =>
        match Metadata.severity md with
        | Some sev => Js.push severities sev
        | None => severities
        end
    | None => severities
    end in
  (tt, (symptoms, severities)).

Definition analyzeSymptoms (messages : list ChatMessage.t) : Analysis :=
  let st := Js.forEach messages collect ([], []) in
  let symptoms := fst st in
  let severities := snd st in
  let overallSeverity :=
    if includesTier severities Emergency then Emergency
    else if includesTier severities High then High
    else if includesTier severities Moderate then Moderate
    else Low in
  {| symptoms := symptoms;
     overallSeverity := overallSeverity;
     messageCount := Z.of_nat (length messages) |}.

(** [getConversationContext(limit = 10)] *)
Definition getConversationContext (messages : list ChatMessage.t)
    (limit : Z) : list Message :=
  let recentMessages := sliceFrom messages (- limit) in
  map (fun msg => {| role := ChatMessage.role msg;
                     content := ChatMessage.content msg |})
      recentMessages.

End ChatSession.

(** ** The health profile model (models/HealthProfile.model.js) *)

Module Allergy.
Record t : Type := mk { allergen : string; severity : string }.
End Allergy.

Module Medication.
Record t : Type := mk { name : string }.
End Medication.

Module KnownCondition.
Record t : Type := mk { name : string; severity : string }.
End KnownCondition.

Module Lifestyle.
Record t : Type := mk {
  smokingStatus : string;
  alcoholConsumption : string;
  exerciseFrequency : string
}.
End Lifestyle.

(** The stored profile, as far as the model's methods and the dashboard
    read it.  [bmi] is the number stored, a finite number taken as the
    rational it denotes; [None] stands for a missing field and for NaN,
    which are both falsy and compare false with everything. *)
Module ProfileDoc.
Record t : Type := mk {
  bmi : option Q;
  lifestyle : Lifestyle.t;
  knownConditions : list KnownCondition.t;
  allergies : list Allergy.t;
  currentMedications : list Medication.t
}.
End ProfileDoc.

(** [a < b] and [a >= b] on numbers. *)
Definition numLt (a b : Q) : bool := negb (Qle_bool b a).

Definition numGe (a b : Q) : bool := Qle_bool b a.

(** A number is truthy unless it is 0 (or missing). *)
Definition truthyNumber (x : option Q) : bool :=
  match x with
  | Some q => negb (Qeq_bool q (0 # 1))
  | None => false
  end.

Record Risk : Type := { factor : string; level : string }.

Definition getHealthRiskSummary (this : ProfileDoc.t) : list Risk :=
  let risks : list Risk := [] in
  let risks :=
    match ProfileDoc.bmi this with
    | Some bmi =>
        if truthyNumber (Some bmi) then
          if numLt bmi (37 # 2) then
            Js.push risks {| factor := "Underweight"; level := "moderate" |}
          else if (numGe bmi (25 # 1) && numLt bmi (30 # 1))%bool then
            Js.push risks {| factor := "Overweight"; level := "moderate" |}
          else if numGe bmi (30 # 1) then
            Js.push risks {| factor := "Obesity"; level := "high" |}
          else risks
        else risks
    | None => risks
    end in
  let lifestyle := ProfileDoc.lifestyle this in
  let risks :=
    if String.eqb (Lifestyle.smokingStatus lifestyle) "current" then
      Js.push risks {| factor := "Smoking"; level := "high" |}
    else risks in
  let risks :=
    if String.eqb (Lifestyle.alcoholConsumption lifestyle) "heavy" then
      Js.push risks {| factor := "Heavy Alcohol Use"; level := "high" |}
    else risks in
  let risks :=
    if String.eqb (Lifestyle.exerciseFrequency lifestyle) "sedentary" then
      Js.push risks {| factor := "Sedentary Lifestyle"; level := "moderate" |}
    else risks in
  match ProfileDoc.knownConditions this with
  | _ :: _ =>
      Js.forEach (ProfileDoc.knownConditions this)
        (fun risks condition =>
           (tt, Js.push risks
                  {| factor := KnownCondition.name condition;
                     level := KnownCondition.severity condition |}))
        risks
  | [] => risks
  end.

(** The two shapes of conflict objects. *)
Inductive Conflict : Type :=
| MedicationConflict (medication severity recommendation : string)
| AllergyConflict (allergen severity recommendation : string).

Record Compatibility : Type := { safe : bool; conflicts : list Conflict }.

Definition checkMedicationCompatibility (this : ProfileDoc.t)
    (medicationName : string) : Compatibility :=
  let conflicts : list Conflict := [] in
  let conflicts :=
    Js.forEach (ProfileDoc.currentMedications this)
      (fun conflicts med =>
         (tt, Js.push conflicts
                (MedicationConflict (Medication.name med) "check-required"
                   "Consult healthcare provider")))
      conflicts in
  let conflicts :=
    Js.forEach (ProfileDoc.allergies this)
      (fun conflicts allergy =>
         (tt, if Js.includes (Js.toLowerCase medicationName)
                   (Js.toLowerCase (Allergy.allergen allergy))
              then Js.push conflicts
                     (AllergyConflict (Allergy.allergen allergy)
                        (Allergy.severity allergy)
                        "DO NOT USE - Known allergy")
              else conflicts))
      conflicts in
  {| safe := Nat.eqb (length conflicts) 0; conflicts := conflicts |}.

(** ** The dashboard's health score (getDashboard, analytics controller) *)

Definition healthScore (healthProfile : option ProfileDoc.t) : Z :=
  let healthScore := 100 in
  let healthScore :=
    match healthProfile with
    | Some hp =>
        let healthScore :=
          match ProfileDoc.bmi hp with
          | Some bmi =>
              if (truthyNumber (Some bmi)
                  && (numLt bmi (37 # 2) || numLt (30 # 1) bmi))%bool
              then healthScore - 10 else healthScore
          | None => healthScore
          end in
        let lifestyle := ProfileDoc.lifestyle hp in
        let healthScore :=
          if String.eqb (Lifestyle.smokingStatus lifestyle) "current"
          then healthScore - 15 else healthScore in
        let healthScore :=
          if String.eqb (Lifestyle.alcoholConsumption lifestyle) "heavy"
          then healthScore - 10 else healthScore in
        let healthScore :=
          if String.eqb (Lifestyle.exerciseFrequency lifestyle) "sedentary"
          then healthScore - 10 else healthScore in
        match ProfileDoc.knownConditions hp with
        | _ :: _ =>
            healthScore
            - Z.of_nat (length (ProfileDoc.knownConditions hp)) * 5
        | [] => healthScore
        end
    | None => healthScore
    end in
  Z.max 0 (Z.min 100 healthScore).

(** ** Further specification vocabulary *)

(** What a matched entry of a tier adds to the score; an entry of tier
    "emergency" adds nothing. *)
Definition tierWeight (t : Severity) : Z :=
  match t with
  | High => 3
  | Moderate => 2
  | Low => 1
  | Emergency => 0
  end.

Definition phraseWeight (p : string) : Z :=
  match findSymptomData p with
  | Some d => tierWeight (Entry.severity d)
  | None => 0
  end.

Definition symptomScore (symptoms : list string) : Z :=
  fold_right (fun p acc => phraseWeight p + acc) 0 symptoms.

(** One point for known conditions, one for an age above 65. *)
Definition profileBonus (hp : option HealthProfile) : Z :=
  (if nonEmpty (profileConditions hp) then 1 else 0)
  + match hp with
    | Some h => if olderThan65 (age h) then 1 else 0
    | None => 0
    end.

(** Some phrase of the list finds an entry of tier [t]. *)
Definition findsTier (symptoms : list string) (t : Severity) : Prop :=
  exists p d,
    In p symptoms /\ findSymptomData p = Some d /\ Entry.severity d = t.

(** The lookup's test: one of phrase and key contains the other. *)
Definition related (symptom key : string) : Prop :=
  Substring key symptom \/ Substring symptom key.

(** The order on scoring states: score and highest tier. *)
Definition ScoringLe (a b : Scoring) : Prop :=
  severityScore a <= severityScore b /\
  tierLe (maxSeverity a) (maxSeverity b).

(** The final determination of [calculateSeverity], from the state the
    loop ends in. *)
Definition tierOfScoring (hp : option HealthProfile) (st : Scoring)
    : Severity :=
  let severityScore := adjustForProfile hp (severityScore st) in
  if 5 <=? severityScore then High
  else if 3 <=? severityScore then Moderate
  else maxSeverity st.

(** No string occurs twice, as a test. *)
Fixpoint distinctb (l : list string) : bool :=
  match l with
  | [] => true
  | x :: l' => (negb (mem x l') && distinctb l')%bool
  end.

(** ** Specification vocabulary for the models *)

(** The symptoms and the severity recorded with a message, if any. *)
Definition messageSymptoms (msg : ChatMessage.t) : list string :=
  match ChatMessage.metadata msg with
  | Some md =>
      match Metadata.identifiedSymptoms md with
      | Some found => found
      | None => []
      end
  | None => []
  end.

Definition messageSeverity (msg : ChatMessage.t) : list Severity :=
  match ChatMessage.metadata msg with
  | Some md =>
      match Metadata.severity md with
      | Some sev => [sev]
      | None => []
      end
  | None => []
  end.

(** What the context keeps of a message. *)
Definition contextOf (msg : ChatMessage.t) : Message :=
  {| role := ChatMessage.role msg; content := ChatMessage.content msg |}.

(** The profile after one more known condition is pushed. *)
Definition withCondition (hp : ProfileDoc.t) (c : KnownCondition.t)
    : ProfileDoc.t :=
  ProfileDoc.mk (ProfileDoc.bmi hp) (ProfileDoc.lifestyle hp)
    (ProfileDoc.knownConditions hp ++ [c]) (ProfileDoc.allergies hp)
    (ProfileDoc.currentMedications hp).

(** The risk entry of a known condition. *)
Definition conditionRisk (c : KnownCondition.t) : Risk :=
  {| factor := KnownCondition.name c; level := KnownCondition.severity c |}.

(** The allergen of the allergy occurs in the medication name, letter case
    aside. *)
Definition allergenIn (medicationName : string) (allergy : Allergy.t)
    : Prop :=
  Substring (Js.toLowerCase (Allergy.allergen allergy))
            (Js.toLowerCase medicationName).

(** The stored body-mass index is one the risk summary reports on: a
    non-zero number below 18.5 or from 25 on. *)
Definition bmiFlagged (bmi : option Q) : Prop :=
  match bmi with
  | Some q => ~ (q == 0)%Q /\ ((q < 37 # 2)%Q \/ (25 # 1 <= q)%Q)
  | None => False
  end.

(** A string does not start with white space. *)
Definition noLeadingSpace (s : string) : Prop :=
  match s with
  | EmptyString => True
  | String c _ => Js.isWhiteSpace c = false
  end.


(** Every character of the string is an ASCII character (code below 128);
    on such strings [Js.toLowerCase] and [Js.trim] are
    [String.prototype.toLowerCase] and [String.prototype.trim] exactly. *)
Fixpoint asciiOnly (s : string) : bool :=
  match s with
  | EmptyString => true
  | String c s' => (Nat.ltb (nat_of_ascii c) 128 && asciiOnly s')%bool
  end.

(** ** Strings *)

Section StringFacts.

Lemma prefix_spec (t s : string) :
  String.prefix t s = true <-> exists post, s = (t ++ post)%string.
Proof.
  revert s; induction t as [|c t IH]; intros s.
  - split; [intros _; exists s; reflexivity | now destruct s].
  - destruct s as [|d s]; simpl;
      [split; [discriminate | intros [post H]; discriminate]|].
    destruct (ascii_dec c d) as [->|Hcd].
    + rewrite IH. split; intros [post H]; exists post.
      * now rewrite H.
      * now inversion H.
    + split; [discriminate | intros [post H]; inversion H; congruence].
Qed.

Lemma includes_spec (s t : string) :
  Js.includes s t = true <-> Substring t s.
Proof.
  unfold Substring. induction s as [|c s IH].
  - change (Js.includes EmptyString t)
      with (String.prefix t EmptyString || false)%bool.
    rewrite orb_false_r, prefix_spec. split.
    + intros [post H]. exists EmptyString, post. exact H.
    + intros [pre [post H]]. destruct pre; simpl in H.
      * now exists post.
      * discriminate.
  - change (Js.includes (String c s) t)
      with (String.prefix t (String c s) || Js.includes s t)%bool.
    rewrite orb_true_iff, prefix_spec, IH. split.
    + intros [[post H]|[pre [post H]]].
      * exists EmptyString, post. exact H.
      * exists (String c pre), post. simpl. now rewrite H.
    + intros [pre [post H]]. destruct pre as [|d pre]; simpl in H.
      * left. now exists post.
      * right. inversion H. now exists pre, post.
  Qed.

Lemma some_includes_spec (symptoms : list string) (w : string) :
  Js.some symptoms (fun s => Js.includes s w) = true <-> mentions symptoms w.
Proof.
  unfold Js.some, mentions. rewrite existsb_exists.
  split; intros [p [Hin H]]; exists p; split; auto; now apply includes_spec.
Qed.

End StringFacts.

(** ** The emergency check *)

Lemma checkEmergency_spec (symptoms : list string) :
  checkEmergency symptoms = true <->
  exists p kw, In p symptoms /\ In kw emergencySymptoms /\ Substring kw p.
Proof.
  unfold checkEmergency, Js.some. rewrite existsb_exists. split.
  - intros [p [Hp H]]. apply existsb_exists in H. destruct H as [kw [Hkw H]].
    exists p, kw. rewrite <- includes_spec. auto.
  - intros [p [kw [Hp [Hkw H]]]]. exists p. split; [assumption|].
    apply existsb_exists. exists kw. rewrite includes_spec. auto.
Qed.

Lemma analyzeSymptoms_emergency (symptoms : list string)
    (hp : option HealthProfile) (history : list Message) :
  checkEmergency (normalize symptoms) = true ->
  analyzeSymptoms symptoms hp history =
  generateEmergencyResponse (normalize symptoms).
Proof. intros H. unfold analyzeSymptoms. now rewrite H. Qed.

Lemma emergencyDetected_checkEmergency (symptoms : list string)
    (hp : option HealthProfile) (history : list Message) :
  Result.emergencyDetected (analyzeSymptoms symptoms hp history) =
  checkEmergency (normalize symptoms).
Proof.
  unfold analyzeSymptoms. now destruct (checkEmergency (normalize symptoms)).
Qed.

(** ** Recommendation assembly *)

Lemma generateRecommendations_blocks (symptoms : list string)
    (severity : Severity) (hp : option HealthProfile)
    (conds : list Condition) :
  generateRecommendations symptoms severity hp conds =
  severityBlock severity
  ++ (if Js.some symptoms (fun s => Js.includes s "fever")
      then feverBlock else [])
  ++ (if Js.some symptoms (fun s => Js.includes s "cough")
      then coughBlock else [])
  ++ (if nonEmpty (profileConditions hp) then conditionsBlock else [])
  ++ (if nonEmpty (profileMedications hp) then medicationsBlock else []).
Proof.
  unfold generateRecommendations, Js.push.
  destruct (Js.some symptoms (fun s => Js.includes s "fever"));
    destruct (Js.some symptoms (fun s => Js.includes s "cough"));
    destruct hp as [h|]; simpl;
    try (destruct (nonEmpty (knownConditions h));
         destruct (nonEmpty (currentMedications h)));
    destruct severity; reflexivity.
Qed.

Lemma analyzeSymptoms_regular (symptoms : list string)
    (hp : option HealthProfile) (history : list Message) :
  Result.emergencyDetected (analyzeSymptoms symptoms hp history) = false ->
  let n := normalize symptoms in
  analyzeSymptoms symptoms hp history =
  {| Result.severity := calculateSeverity n hp;
     Result.emergencyDetected := false;
     Result.identifiedSymptoms := n;
     Result.urgentAction := None;
     Result.emergencyNumber := None;
     Result.possibleConditions := Some (identifyPossibleConditions n);
     Result.recommendations :=
       generateRecommendations n (calculateSeverity n hp) hp
         (identifyPossibleConditions n);
     Result.disclaimer := getDisclaimer |}.
Proof.
  rewrite emergencyDetected_checkEmergency. intros H n. subst n.
  unfold analyzeSymptoms. now rewrite H.
Qed.

(** ** Symptom extraction *)

Section SubsequenceFacts.
Context {A : Type}.

Lemma Subsequence_filter (p : A -> bool) (l : list A) :
  Subsequence (List.filter p l) l.
Proof.
  induction l as [|x l IH]; simpl.
  - constructor.
  - destruct (p x); now constructor.
Qed.

Lemma Subsequence_In (l1 l2 : list A) (x : A) :
  Subsequence l1 l2 -> In x l1 -> In x l2.
Proof.
  induction 1 as [|y l1 l2 _ IH|y l1 l2 _ IH]; simpl; intuition.
Qed.

(** A subsequence of a duplicate-free list is determined by its members. *)
Lemma Subsequence_unique (l a b : list A) :
  NoDup l -> Subsequence a l -> Subsequence b l ->
  (forall x, In x a <-> In x b) -> a = b.
Proof.
  intros Hnd. revert a b.
  induction Hnd as [|x l Hx Hnd IH]; intros a b Ha Hb Hab.
  - inversion Ha; inversion Hb; reflexivity.
  - inversion Ha as [|y a1 l1 Ha'|y a1 l1 Ha']; subst;
      inversion Hb as [|z b1 l2 Hb'|z b1 l2 Hb']; subst.
    + now apply IH.
    + exfalso. apply Hx. apply (Subsequence_In a l x Ha').
      apply Hab. now left.
    + exfalso. apply Hx. apply (Subsequence_In b l x Hb').
      apply Hab. now left.
    + f_equal. apply IH; trivial.
      intros y. split; intros Hy.
      * destruct (proj1 (Hab y) (or_intror Hy)) as [->|]; trivial.
        exfalso. apply Hx. now apply (Subsequence_In a1 l y Ha').
      * destruct (proj2 (Hab y) (or_intror Hy)) as [->|]; trivial.
        exfalso. apply Hx. now apply (Subsequence_In b1 l y Hb').
Qed.
End SubsequenceFacts.

Lemma commonSymptoms_NoDup : NoDup commonSymptoms.
Proof.
  unfold commonSymptoms.
  repeat (constructor; [simpl; intuition discriminate|]). constructor.
Qed.

Lemma extractSymptoms_In (message s : string) :
  In s (extractSymptoms message) <->
  In s commonSymptoms /\ Substring s (Js.toLowerCase message).
Proof.
  unfold extractSymptoms, Js.filter. now rewrite filter_In, includes_spec.
Qed.

(** ** Severity scoring *)

Section ForEachFacts.
Context {S A R : Type} (callback : S -> A -> R * S).

Lemma forEach_app (l1 l2 : list A) (st : S) :
  Js.forEach (l1 ++ l2) callback st =
  Js.forEach l2 callback (Js.forEach l1 callback st).
Proof. revert st; induction l1 as [|x l1 IH]; intros st; simpl; auto. Qed.

Lemma forEach_invariant (P : S -> Prop) :
  (forall st x, P st -> P (snd (callback st x))) ->
  forall l st, P st -> P (Js.forEach l callback st).
Proof. intros Hstep l; induction l as [|x l IH]; simpl; auto. Qed.
End ForEachFacts.

Lemma scoreSymptom_inv (st : Scoring) (symptom : string) :
  ScoringInv st -> ScoringInv (snd (scoreSymptom st symptom)).
Proof.
  unfold ScoringInv, scoreSymptom.
  destruct (findSymptomData symptom) as [d|]; [|trivial].
  destruct (Entry.severity d); simpl; trivial;
    destruct (maxSeverity st); simpl; lia.
Qed.

Lemma scoreSymptom_mono (st : Scoring) (symptom : string) :
  ScoringInv st ->
  let st' := snd (scoreSymptom st symptom) in
  severityScore st <= severityScore st' /\
  tierLe (maxSeverity st) (maxSeverity st').
Proof.
  unfold ScoringInv, scoreSymptom, tierLe.
  destruct (findSymptomData symptom) as [d|]; [|simpl; lia].
  destruct (Entry.severity d); simpl; try lia;
    destruct (maxSeverity st); simpl; lia.
Qed.

Lemma scoring_inv (symptoms : list string) :
  ScoringInv
    (Js.forEach symptoms scoreSymptom {| maxSeverity := Low; severityScore := 0 |}).
Proof.
  apply forEach_invariant.
  - intros st x. apply scoreSymptom_inv.
  - unfold ScoringInv; simpl; lia.
Qed.

Lemma adjustForProfile_shift (hp : option HealthProfile) (score : Z) :
  adjustForProfile hp score = score + adjustForProfile hp 0.
Proof.
  unfold adjustForProfile. destruct hp as [h|]; [|lia].
  destruct (nonEmpty (knownConditions h)); destruct (olderThan65 (age h)); lia.
Qed.

Lemma adjustForProfile_nonneg (hp : option HealthProfile) :
  0 <= adjustForProfile hp 0.
Proof.
  unfold adjustForProfile. destruct hp as [h|]; [|lia].
  destruct (nonEmpty (knownConditions h)); destruct (olderThan65 (age h)); lia.
Qed.

(** The scoring loop never produces the "emergency" tier: the callback's
    [return 'emergency'] is dropped by [forEach]. *)
Lemma calculateSeverity_not_emergency (symptoms : list string)
    (hp : option HealthProfile) :
  calculateSeverity symptoms hp <> Emergency.
Proof.
  unfold calculateSeverity.
  pose proof (scoring_inv symptoms) as Hinv. unfold ScoringInv in Hinv.
  destruct (5 <=? _); [discriminate|].
  destruct (3 <=? _); [discriminate|].
  intros E. now rewrite E in Hinv.
Qed.

Lemma calculateSeverity_app_mono (symptoms : list string) (p : string)
    (hp : option HealthProfile) :
  tierLe (calculateSeverity symptoms hp) (calculateSeverity (symptoms ++ [p]) hp).
Proof.
  unfold calculateSeverity. rewrite forEach_app. simpl.
  set (st := Js.forEach symptoms scoreSymptom _).
  pose proof (scoring_inv symptoms) as Hinv. fold st in Hinv.
  pose proof (scoreSymptom_inv st p Hinv) as Hinv'.
  destruct (scoreSymptom_mono st p Hinv) as [Hs Hm].
  set (st' := snd (scoreSymptom st p)) in *.
  rewrite (adjustForProfile_shift hp (severityScore st)).
  rewrite (adjustForProfile_shift hp (severityScore st')).
  pose proof (adjustForProfile_nonneg hp) as Hadj.
  unfold ScoringInv, tierLe in *.
  repeat match goal with
         | |- context [?a <=? ?b] => destruct (Z.leb_spec a b)
         end;
    destruct (maxSeverity st); destruct (maxSeverity st'); simpl in *; lia.
Qed.

Lemma tierLe_Emergency (s : Severity) : tierLe s Emergency.
Proof. unfold tierLe; destruct s; simpl; lia. Qed.

Lemma normalize_app (l1 l2 : list string) :
  normalize (l1 ++ l2) = normalize l1 ++ normalize l2.
Proof. apply map_app. Qed.

Lemma checkEmergency_app (l1 l2 : list string) :
  checkEmergency (l1 ++ l2) = (checkEmergency l1 || checkEmergency l2)%bool.
Proof. apply existsb_app. Qed.

(** Appending a phrase, whatever it is, never lowers the tier. *)
Lemma severity_append_mono (symptoms : list string) (p : string)
    (hp : option HealthProfile) (history : list Message) :
  tierLe (Result.severity (analyzeSymptoms symptoms hp history))
         (Result.severity (analyzeSymptoms (symptoms ++ [p]) hp history)).
Proof.
  unfold analyzeSymptoms. rewrite normalize_app, checkEmergency_app.
  destruct (checkEmergency (normalize symptoms)); cbn [orb].
  - apply tierLe_Emergency.
  - destruct (checkEmergency (normalize [p])).
    + apply tierLe_Emergency.
    + apply calculateSeverity_app_mono.
Qed.

(** ** The insertion-ordered map *)

Section MapFacts.

Lemma mem_In (x : string) (l : list string) : mem x l = true <-> In x l.
Proof.
  unfold mem. rewrite existsb_exists. split.
  - intros [y [Hy E]]. apply String.eqb_eq in E. now subst.
  - intros H. exists x. split; trivial. apply String.eqb_refl.
Qed.

Lemma get_set_same (m : Js.Map Z) (k : string) (v : Z) :
  Js.get (Js.set m k v) k = Some v.
Proof.
  induction m as [|[k' v'] m IH]; simpl.
  - now rewrite String.eqb_refl.
  - destruct (String.eqb k' k) eqn:E; simpl; now rewrite E.
Qed.

Lemma get_set_other (m : Js.Map Z) (k k' : string) (v : Z) :
  k' <> k -> Js.get (Js.set m k v) k' = Js.get m k'.
Proof.
  intros Hne. induction m as [|[k0 v0] m IH]; simpl.
  - apply String.eqb_neq in Hne. rewrite String.eqb_sym. now rewrite Hne.
  - destruct (String.eqb k0 k) eqn:E; simpl.
    + apply String.eqb_eq in E. subst k0.
      destruct (String.eqb k k') eqn:E'; trivial.
      apply String.eqb_eq in E'. congruence.
    + now rewrite IH.
Qed.

Lemma keys_set (m : Js.Map Z) (k : string) (v : Z) :
  map fst (Js.set m k v) =
  if mem k (map fst m) then map fst m else map fst m ++ [k].
Proof.
  unfold mem. induction m as [|[k' v'] m IH]; simpl; trivial.
  rewrite (String.eqb_sym k k').
  destruct (String.eqb k' k); simpl; trivial.
  rewrite IH. now destruct (existsb (String.eqb k) (map fst m)).
Qed.

Lemma get_None_keys (m : Js.Map Z) (k : string) :
  ~ In k (map fst m) -> Js.get m k = None.
Proof.
  induction m as [|[k' v'] m IH]; simpl; trivial.
  intros H. destruct (String.eqb k' k) eqn:E.
  - apply String.eqb_eq in E. tauto.
  - apply IH. tauto.
Qed.

(** A map without repeated keys lists, key by key, what [get] finds. *)
Lemma entries_keys_get (m : Js.Map Z) :
  NoDup (map fst m) ->
  Js.entries m = map (fun k => (k, getOr0 m k)) (map fst m).
Proof.
  unfold Js.entries, getOr0.
  induction m as [|[k v] m IH]; simpl; trivial.
  intros Hnd. inversion Hnd as [|? ? Hk Hnd']; subst.
  rewrite String.eqb_refl. f_equal.
  rewrite IH at 1 by assumption.
  apply map_ext_in. intros k' Hk'.
  destruct (String.eqb k k') eqn:E; trivial.
  apply String.eqb_eq in E. subst. contradiction.
Qed.

End MapFacts.

(** ** Counting the related conditions *)

Section Counting.

Lemma filter_notin_after (c : string) (seen l : list string) :
  mem c seen = true ->
  List.filter (fun x => negb (mem x seen))
    (List.filter (fun x => negb (String.eqb x c)) l) =
  List.filter (fun x => negb (mem x seen)) l.
Proof.
  intros Hc. induction l as [|x l IH]; simpl; trivial.
  destruct (String.eqb x c) eqn:E; simpl.
  - apply String.eqb_eq in E. subst x. now rewrite Hc.
  - now rewrite IH.
Qed.

Lemma filter_notin_snoc (c : string) (seen l : list string) :
  List.filter (fun x => negb (mem x (seen ++ [c]))) l =
  List.filter (fun x => negb (mem x seen))
    (List.filter (fun x => negb (String.eqb x c)) l).
Proof.
  induction l as [|x l IH]; simpl; trivial.
  unfold mem at 1. rewrite existsb_app. simpl. rewrite orb_false_r.
  fold (mem x seen).
  destruct (String.eqb x c); simpl.
  - rewrite orb_true_r. exact IH.
  - rewrite orb_false_r. destruct (mem x seen); simpl; now rewrite IH.
Qed.

(** [firstEncounter] keeps every name, once. *)
Lemma firstEncounter_In (names : list string) (x : string) :
  In x (firstEncounter names) <-> In x names.
Proof.
  induction names as [|c names IH]; simpl; [tauto|].
  rewrite filter_In, IH, negb_true_iff, String.eqb_neq.
  destruct (string_dec c x) as [->|Hne]; [tauto|].
  split; [tauto|]. intros [?|?]; [tauto|]. right. split; congruence.
Qed.

Lemma firstEncounter_NoDup (names : list string) :
  NoDup (firstEncounter names).
Proof.
  induction names as [|c names IH]; simpl; constructor.
  - rewrite filter_In, negb_true_iff, String.eqb_neq. tauto.
  - now apply NoDup_filter.
Qed.

Lemma countCondition_keys (m : Js.Map Z) (c : string) :
  map fst (snd (countCondition m c)) =
  if mem c (map fst m) then map fst m else map fst m ++ [c].
Proof. apply keys_set. Qed.

Lemma countCondition_getOr0 (m : Js.Map Z) (c k : string) :
  getOr0 (snd (countCondition m c)) k =
  getOr0 m k + (if String.eqb c k then 1 else 0).
Proof.
  unfold countCondition, getOr0. simpl.
  destruct (String.eqb c k) eqn:E.
  - apply String.eqb_eq in E. subst k. now rewrite get_set_same.
  - apply String.eqb_neq in E. rewrite get_set_other by congruence. lia.
Qed.

Lemma frequency_cons (c k : string) (names : list string) :
  frequency (c :: names) k =
  (if String.eqb c k then 1 else 0) + frequency names k.
Proof.
  unfold frequency. simpl. destruct (string_dec c k) as [->|Hne].
  - rewrite String.eqb_refl. lia.
  - apply String.eqb_neq in Hne. rewrite Hne. lia.
Qed.

Lemma counted_getOr0 (names : list string) (m : Js.Map Z) (k : string) :
  getOr0 (Js.forEach names countCondition m) k = getOr0 m k + frequency names k.
Proof.
  revert m. induction names as [|c names IH]; intros m.
  - unfold frequency. simpl. lia.
  - cbn [Js.forEach]. rewrite IH, countCondition_getOr0, frequency_cons. lia.
Qed.

Lemma counted_keys (names : list string) (m : Js.Map Z) :
  map fst (Js.forEach names countCondition m) =
  map fst m
  ++ List.filter (fun x => negb (mem x (map fst m))) (firstEncounter names).
Proof.
  revert m. induction names as [|c names IH]; intros m.
  - simpl. now rewrite app_nil_r.
  - cbn [Js.forEach firstEncounter List.filter].
    rewrite IH, countCondition_keys.
    destruct (mem c (map fst m)) eqn:Hc; cbn [negb].
    + now rewrite filter_notin_after.
    + now rewrite filter_notin_snoc, <- app_assoc.
Qed.

Lemma counted_NoDup (names : list string) (m : Js.Map Z) :
  NoDup (map fst m) -> NoDup (map fst (Js.forEach names countCondition m)).
Proof.
  apply (forEach_invariant countCondition (fun m => NoDup (map fst m))).
  clear. intros m c Hnd. rewrite countCondition_keys.
  destruct (mem c (map fst m)) eqn:Hc; trivial.
  apply NoDup_app; [assumption | repeat constructor; simpl; tauto |].
  intros x Hx [<-|[]]. apply mem_In in Hx. congruence.
Qed.

(** Counting from the empty map: each distinct name once, in the order of
    first encounter, with the number of its occurrences. *)
Lemma counted_entries (names : list string) :
  Js.entries (Js.forEach names countCondition []) =
  map (fun c => (c, frequency names c)) (firstEncounter names).
Proof.
  rewrite entries_keys_get by (apply counted_NoDup; constructor).
  rewrite counted_keys. simpl.
  replace (List.filter (fun _ : string => true) (firstEncounter names))
    with (firstEncounter names)
    by (induction (firstEncounter names) as [|x l IH];
        simpl; [|rewrite <- IH]; reflexivity).
  apply map_ext. intros c. now rewrite counted_getOr0.
Qed.

Lemma countSymptom_flat (symptoms : list string) (m : Js.Map Z) :
  Js.forEach symptoms countSymptom m =
  Js.forEach (encounteredConditions symptoms) countCondition m.
Proof.
  revert m. induction symptoms as [|s symptoms IH]; intros m; trivial.
  unfold encounteredConditions. cbn [Js.forEach flat_map].
  rewrite forEach_app. fold (encounteredConditions symptoms).
  rewrite <- IH. unfold countSymptom at 2.
  now destruct (findSymptomData s).
Qed.

End Counting.

(** ** The knowledge table *)

Lemma findIn_In (table : list (string * Entry.t)) (symptom : string)
    (d : Entry.t) :
  findIn table symptom = Some d -> In d (map snd table).
Proof.
  induction table as [|[key value] table IH]; simpl; [discriminate|].
  destruct (Js.includes symptom key || Js.includes key symptom)%bool.
  - intros [= ->]. now left.
  - intros H. right. now apply IH.
Qed.

Lemma relatedConditions_NoDup (symptom : string) (d : Entry.t) :
  findSymptomData symptom = Some d -> NoDup (Entry.relatedConditions d).
Proof.
  intros H. apply findIn_In in H. simpl in H.
  repeat (destruct H as [<-|H];
          [simpl; repeat (constructor; [simpl; intuition discriminate|]);
           constructor|]).
  contradiction.
Qed.

Lemma count_occ_NoDup (l : list string) (c : string) :
  NoDup l -> count_occ string_dec l c = if mem c l then 1%nat else 0%nat.
Proof.
  intros Hnd. destruct (mem c l) eqn:E.
  - apply mem_In in E. apply NoDup_count_occ' with (decA := string_dec); trivial.
  - apply count_occ_not_In. intros Hin. apply mem_In in Hin. congruence.
Qed.

(** The occurrences of a name among the names met are the phrases whose
    entry lists it. *)
Lemma frequency_listingCount (symptoms : list string) (c : string) :
  frequency (encounteredConditions symptoms) c = listingCount symptoms c.
Proof.
  unfold frequency, listingCount, encounteredConditions. f_equal.
  induction symptoms as [|s symptoms IH]; trivial.
  cbn [flat_map List.filter]. rewrite count_occ_app, IH.
  destruct (findSymptomData s) as [d|] eqn:E; trivial.
  rewrite (count_occ_NoDup _ c (relatedConditions_NoDup s d E)).
  unfold mem. now destruct (existsb (String.eqb c) (Entry.relatedConditions d)).
Qed.

(** ** The stable sort *)

Section SortFacts.
Context {A : Type} (compareFn : A -> A -> Z).

Lemma insertSorted_perm (x : A) (l : list A) :
  Permutation (Js.insertSorted compareFn x l) (x :: l).
Proof.
  induction l as [|y l IH]; simpl; [reflexivity|].
  destruct (0 <? compareFn x y); [|reflexivity].
  rewrite IH. apply perm_swap.
Qed.

Lemma sort_perm (l : list A) : Permutation (Js.sort l compareFn) l.
Proof.
  unfold Js.sort. induction l as [|x l IH]; simpl; [reflexivity|].
  now rewrite insertSorted_perm, IH.
Qed.

Lemma insertSorted_Forall (P : A -> Prop) (x : A) (l : list A) :
  P x -> Forall P l -> Forall P (Js.insertSorted compareFn x l).
Proof.
  intros Hx Hl. eapply Permutation_Forall.
  - symmetry. apply insertSorted_perm.
  - now constructor.
Qed.
End SortFacts.

Section SortByFrequency.

Lemma insertSorted_sorted (x : string * Z) (l : list (string * Z)) :
  StronglySorted Descending l ->
  StronglySorted Descending (Js.insertSorted byFrequency x l).
Proof.
  induction 1 as [|y l Hl IH Hy]; simpl.
  - repeat constructor.
  - unfold byFrequency at 1. destruct (Z.ltb_spec 0 (snd y - snd x)).
    + constructor; trivial. apply insertSorted_Forall; trivial.
      unfold Descending. lia.
    + constructor; [now constructor|]. constructor.
      * unfold Descending. lia.
      * eapply Forall_impl; [|exact Hy]. unfold Descending. intros; lia.
Qed.

Lemma sort_sorted (l : list (string * Z)) :
  StronglySorted Descending (Js.sort l byFrequency).
Proof.
  unfold Js.sort. induction l as [|x l IH]; simpl.
  - constructor.
  - now apply insertSorted_sorted.
Qed.

(** An element is moved past strictly more frequent ones only: the
    entries of one frequency keep their order. *)
Lemma insertSorted_stable (n : Z) (x : string * Z) (l : list (string * Z)) :
  List.filter (fun e => snd e =? n) (Js.insertSorted byFrequency x l) =
  List.filter (fun e => snd e =? n) (x :: l).
Proof.
  induction l as [|y l IH]; trivial.
  cbn [Js.insertSorted]. unfold byFrequency at 1.
  destruct (Z.ltb_spec 0 (snd y - snd x)); trivial.
  cbn [List.filter] in *. rewrite IH.
  destruct (Z.eqb_spec (snd y) n); destruct (Z.eqb_spec (snd x) n);
    trivial; lia.
Qed.

Lemma sort_stable (n : Z) (l : list (string * Z)) :
  List.filter (fun e => snd e =? n) (Js.sort l byFrequency) =
  List.filter (fun e => snd e =? n) l.
Proof.
  unfold Js.sort. induction l as [|x l IH]; trivial.
  cbn [fold_right]. rewrite insertSorted_stable.
  cbn [List.filter]. now rewrite IH.
Qed.

End SortByFrequency.

(** What [identifyPossibleConditions] computes, in one equation. *)
Lemma identifyPossibleConditions_ranked (symptoms : list string) :
  identifyPossibleConditions symptoms =
  map toCondition
    (firstn 5
       (Js.sort
          (map (fun c => (c, listingCount symptoms c))
             (firstEncounter (encounteredConditions symptoms)))
          byFrequency)).
Proof.
  unfold identifyPossibleConditions, Js.slice0.
  rewrite countSymptom_flat, counted_entries, firstn_map.
  do 3 f_equal. apply map_ext. intros c. now rewrite frequency_listingCount.
Qed.

(** ** Properties of the classifier *)

Lemma nonEmpty_hasEntries (xs : option (list string)) :
  nonEmpty xs = true <-> hasEntries xs.
Proof.
  unfold hasEntries. destruct xs as [[|c cs]|]; simpl; split;
    try discriminate; try reflexivity;
    try (intros [c' [cs' H]]; discriminate).
  intros _. now exists c, cs.
Qed.

Lemma optionalBlock_if (b : bool) (present : Prop) (block : list string) :
  (b = true <-> present) -> optionalBlock present block (if b then block else []).
Proof.
  intros H. unfold optionalBlock. destruct b.
  - left. split; trivial. now apply H.
  - right. split; trivial. intros Hp. apply H in Hp. discriminate.
Qed.

(** C1 (the code departs from the specification): the phrase "consciousness" passes
    the keyword check and its lookup finds the one entry of tier "emergency",
    yet the severity returned is "low": the [return 'emergency'] of the
    scoring callback ends the callback only. *)
Theorem C1_emergency_tier_entry_not_escalated :
  checkEmergency (normalize ["consciousness"]) = false /\
  matchesTier "consciousness" Emergency /\
  fst (scoreSymptom {| maxSeverity := Low; severityScore := 0 |} "consciousness")
    = Some Emergency /\
  Result.severity (analyzeSymptoms ["consciousness"] None []) = Low.
Proof.
  split; [reflexivity|]. split; [|split; reflexivity].
  eexists. split; reflexivity.
Qed.




(** C3: whenever the emergency flag of the result is true, its severity is
    "emergency" and the result is the fixed emergency script built from the
    normalized phrases alone: no score, no conditions, no profile. *)
Theorem C3_emergency_flag_invariant (symptoms : list string)
    (hp : option HealthProfile) (history : list Message) :
  Result.emergencyDetected (analyzeSymptoms symptoms hp history) = true ->
  Result.severity (analyzeSymptoms symptoms hp history) = Emergency /\
  analyzeSymptoms symptoms hp history
    = generateEmergencyResponse (normalize symptoms) /\
  Result.recommendations (analyzeSymptoms symptoms hp history)
    = emergencyRecommendations.
Proof.
  rewrite emergencyDetected_checkEmergency. intros H.
  rewrite (analyzeSymptoms_emergency symptoms hp history H).
  repeat split.
Qed.

Lemma C3_emergency_flag_invariant_witness :
  Result.emergencyDetected
    (analyzeSymptoms ["fever"; "Difficulty breathing"] None []) = true /\
  Result.severity
    (analyzeSymptoms ["fever"; "Difficulty breathing"] None []) = Emergency.
Proof.
  split; [reflexivity|].
  exact (proj1 (C3_emergency_flag_invariant
                  ["fever"; "Difficulty breathing"] None [] eq_refl)).
Defined.

(** C4: for the empty symptom list and no health profile the result is
    severity "low", emergency flag false, an empty condition list and the
    low-severity recommendation block alone. *)
Theorem C4_empty_symptom_list (history : list Message) :
  Result.severity (analyzeSymptoms [] None history) = Low /\
  Result.emergencyDetected (analyzeSymptoms [] None history) = false /\
  Result.possibleConditions (analyzeSymptoms [] None history) = Some [] /\
  Result.recommendations (analyzeSymptoms [] None history)
    = [ "Monitor symptoms; they may resolve on their own";
        "Maintain proper rest and hydration" ].
Proof. repeat split. Qed.

(** C5, as stated, fails: for the empty symptom list without a profile the
    classification is not an emergency and no optional block applies, so the
    list would be one block of 3 severity strings; it has 2 strings. *)
Lemma C5_counterexample :
  Result.emergencyDetected (analyzeSymptoms [] None []) = false /\
  ~ mentions (normalize []) "fever" /\
  ~ mentions (normalize []) "cough" /\
  ~ hasEntries (profileConditions None) /\
  ~ hasEntries (profileMedications None) /\
  ~ (exists a b c : string,
       Result.recommendations (analyzeSymptoms [] None []) = [a; b; c]).
Proof.
  split; [reflexivity|].
  split; [intros [p [[] _]]|]. split; [intros [p [[] _]]|].
  split; [intros [c [cs H]]; discriminate|].
  split; [intros [c [cs H]]; discriminate|].
  intros [a [b [c H]]]. discriminate H.
Qed.

(** C5 (amended): for every non-emergency classification the
    recommendation list is the severity block of the returned tier (3 fixed
    strings for high, 2 for moderate, 2 for low), then the 3 fever strings
    when some normalized phrase contains "fever", then the 3 cough strings
    when some phrase contains "cough", then 2 strings when the profile's
    known conditions are non-empty, then 2 strings when its medications are
    non-empty, in that order. *)
Theorem C5_recommendation_blocks (symptoms : list string)
    (hp : option HealthProfile) (history : list Message) :
  Result.emergencyDetected (analyzeSymptoms symptoms hp history) = false ->
  (exists fever cough conds meds : list string,
     Result.recommendations (analyzeSymptoms symptoms hp history)
       = severityBlock (Result.severity (analyzeSymptoms symptoms hp history))
         ++ fever ++ cough ++ conds ++ meds /\
     optionalBlock (mentions (normalize symptoms) "fever") feverBlock fever /\
     optionalBlock (mentions (normalize symptoms) "cough") coughBlock cough /\
     optionalBlock (hasEntries (profileConditions hp)) conditionsBlock conds /\
     optionalBlock (hasEntries (profileMedications hp)) medicationsBlock meds) /\
  Result.severity (analyzeSymptoms symptoms hp history) <> Emergency /\
  length (severityBlock High) = 3%nat /\
  length (severityBlock Moderate) = 2%nat /\
  length (severityBlock Low) = 2%nat /\
  length feverBlock = 3%nat /\ length coughBlock = 3%nat /\
  length conditionsBlock = 2%nat /\ length medicationsBlock = 2%nat.
Proof.
  intros H. rewrite (analyzeSymptoms_regular symptoms hp history H).
  cbn [Result.recommendations Result.severity].
  split; [|split; [apply calculateSeverity_not_emergency | repeat split]].
  rewrite generateRecommendations_blocks.
  do 4 eexists. split; [reflexivity|].
  repeat split; apply optionalBlock_if;
    first [apply some_includes_spec | apply nonEmpty_hasEntries].
Qed.

Lemma C5_recommendation_blocks_witness :
  Result.emergencyDetected
    (analyzeSymptoms ["High Fever"; "dry cough"]
       (Some {| age := Some 70; knownConditions := Some ["diabetes"];
                currentMedications := None |}) []) = false /\
  Result.severity
    (analyzeSymptoms ["High Fever"; "dry cough"]
       (Some {| age := Some 70; knownConditions := Some ["diabetes"];
                currentMedications := None |}) []) <> Emergency.
Proof.
  split; [reflexivity|].
  exact (proj1 (proj2
    (C5_recommendation_blocks ["High Fever"; "dry cough"]
       (Some {| age := Some 70; knownConditions := Some ["diabetes"];
                currentMedications := None |}) [] eq_refl))).
Defined.

(** C6: for every non-emergency classification the condition list is the
    first 5 (all, when there are fewer) of a ranking of the distinct
    related-condition names, each with the number of phrases whose entry
    lists it; the ranking is in descending frequency, names of one frequency
    stay in first-encountered order, and the likelihood is "high" for a
    frequency above 1 and "moderate" otherwise. *)
Theorem C6_condition_aggregation (symptoms : list string)
    (hp : option HealthProfile) (history : list Message) :
  Result.emergencyDetected (analyzeSymptoms symptoms hp history) = false ->
  exists (ranked : list (string * Z)) (conds : list Condition),
    Permutation ranked
      (map (fun c => (c, listingCount (normalize symptoms) c))
         (firstEncounter (encounteredConditions (normalize symptoms)))) /\
    StronglySorted Descending ranked /\
    (forall n : Z,
       List.filter (fun e => snd e =? n) ranked =
       List.filter (fun e => snd e =? n)
         (map (fun c => (c, listingCount (normalize symptoms) c))
            (firstEncounter (encounteredConditions (normalize symptoms))))) /\
    Result.possibleConditions (analyzeSymptoms symptoms hp history) = Some conds /\
    conds =
      map (fun e => {| condition := fst e;
                       likelihood := if 1 <? snd e then LikelihoodHigh
                                     else LikelihoodModerate |})
        (firstn 5 ranked) /\
    length conds =
      Nat.min 5
        (length (firstEncounter (encounteredConditions (normalize symptoms)))).
Proof.
  intros H. rewrite (analyzeSymptoms_regular symptoms hp history H).
  cbn [Result.possibleConditions].
  rewrite identifyPossibleConditions_ranked.
  set (counted := map _ (firstEncounter _)).
  exists (Js.sort counted byFrequency). eexists.
  split; [apply sort_perm|]. split; [apply sort_sorted|].
  split; [intros n; apply sort_stable|].
  split; [reflexivity|]. split; [reflexivity|].
  rewrite length_map, length_firstn.
  rewrite (Permutation_length (sort_perm byFrequency counted)).
  unfold counted. now rewrite length_map.
Qed.

Lemma C6_condition_aggregation_witness :
  Result.emergencyDetected
    (analyzeSymptoms ["fever"; "cough"; "nausea"; "Fever"; "vomiting"] None [])
    = false /\
  exists conds : list Condition,
    Result.possibleConditions
      (analyzeSymptoms ["fever"; "cough"; "nausea"; "Fever"; "vomiting"] None [])
      = Some conds /\
    length conds = 5%nat.
Proof.
  split; [reflexivity|].
  destruct (C6_condition_aggregation
              ["fever"; "cough"; "nausea"; "Fever"; "vomiting"] None [] eq_refl)
    as [ranked [conds [_ [_ [_ [Hc [_ Hlen]]]]]]].
  exists conds. split; [exact Hc|]. exact Hlen.
Defined.

(** C7: appending one phrase whose lookup finds a "high"-tier entry never
    lowers the severity tier, in the order low < moderate < high <
    emergency. *)
Theorem C7_severity_monotone_high_phrase (symptoms : list string)
    (p : string) (hp : option HealthProfile) (history : list Message) :
  matchesTier p High ->
  tierLe (Result.severity (analyzeSymptoms symptoms hp history))
         (Result.severity (analyzeSymptoms (symptoms ++ [p]) hp history)).
Proof. intros _. apply severity_append_mono. Qed.

Lemma C7_severity_monotone_high_phrase_witness :
  matchesTier "Chest" High /\
  tierLe (Result.severity (analyzeSymptoms ["dizziness"] None []))
         (Result.severity (analyzeSymptoms (["dizziness"] ++ ["Chest"]) None [])).
Proof.
  assert (H : matchesTier "Chest" High).
  { eexists. split; reflexivity. }
  split; [exact H|].
  exact (C7_severity_monotone_high_phrase ["dizziness"] "Chest" None [] H).
Defined.

(** C8, as stated, fails: in ["fever"; "chest pain"] a phrase contains
    "fever", but the classification is an emergency and its recommendation
    list is the emergency script, without the fever strings. *)
Lemma C8_counterexample :
  mentions (normalize ["fever"; "chest pain"]) "fever" /\
  ~ incl feverBlock
      (Result.recommendations (analyzeSymptoms ["fever"; "chest pain"] None [])).
Proof.
  split.
  - exists "fever". split; [now left|]. now exists EmptyString, EmptyString.
  - intros H. specialize (H "Stay hydrated and rest" (or_introl eq_refl)).
    vm_compute in H. intuition discriminate.
Qed.

(** C8 (amended): for every input that is not classified as an emergency,
    when some normalized phrase contains "fever" the recommendation list
    contains the 3 fever strings, whatever the severity tier; and likewise
    for "cough" and the 3 cough strings. *)
Theorem C8_fever_cough_blocks (symptoms : list string)
    (hp : option HealthProfile) (history : list Message) :
  Result.emergencyDetected (analyzeSymptoms symptoms hp history) = false ->
  (mentions (normalize symptoms) "fever" ->
   containsBlock feverBlock
     (Result.recommendations (analyzeSymptoms symptoms hp history))) /\
  (mentions (normalize symptoms) "cough" ->
   containsBlock coughBlock
     (Result.recommendations (analyzeSymptoms symptoms hp history))).
Proof.
  intros H. rewrite (analyzeSymptoms_regular symptoms hp history H).
  cbn [Result.recommendations]. rewrite generateRecommendations_blocks.
  split; intros Hm; apply some_includes_spec in Hm; rewrite Hm.
  - exists (severityBlock (calculateSeverity (normalize symptoms) hp)).
    eexists. reflexivity.
  - eexists (severityBlock _ ++ _). eexists.
    rewrite <- app_assoc. reflexivity.
Qed.

Lemma C8_fever_cough_blocks_witness :
  Result.emergencyDetected (analyzeSymptoms ["Fever"; "bad cough"] None [])
    = false /\
  mentions (normalize ["Fever"; "bad cough"]) "cough" /\
  containsBlock coughBlock
    (Result.recommendations (analyzeSymptoms ["Fever"; "bad cough"] None [])).
Proof.
  assert (Hm : mentions (normalize ["Fever"; "bad cough"]) "cough").
  { exists "bad cough". split; [right; left; reflexivity|].
    now exists "bad ", EmptyString. }
  split; [reflexivity|]. split; [exact Hm|].
  exact (proj2 (C8_fever_cough_blocks ["Fever"; "bad cough"] None [] eq_refl)
               Hm).
Defined.

(** C9: the symptoms extracted from a message are exactly the words of the
    fixed 10-word vocabulary that occur in the lowercased message, in the
    order of the vocabulary: a list is the extraction if and only if it is
    an order-keeping selection from the vocabulary whose members are the
    words that occur. *)
Theorem C9_extractSymptoms_vocabulary (message : string) :
  commonSymptoms =
    [ "fever"; "headache"; "pain"; "cough"; "nausea"; "vomiting"; "dizzy";
      "tired"; "chest pain"; "rash" ] /\
  forall l : list string,
    l = extractSymptoms message <->
    (Subsequence l commonSymptoms /\
     forall s, In s l <->
               In s commonSymptoms /\ Substring s (Js.toLowerCase message)).
Proof.
  split; [reflexivity|]. intros l. split.
  - intros ->. split.
    + apply Subsequence_filter.
    + apply extractSymptoms_In.
  - intros [Hsub Hin].
    apply (Subsequence_unique commonSymptoms); trivial.
    + apply commonSymptoms_NoDup.
    + apply Subsequence_filter.
    + intros s. rewrite Hin. symmetry. apply extractSymptoms_In.
Qed.

(** C10: the conversation history has no influence on the result: two
    calls that differ in the history alone return the same object. *)
Theorem C10_history_noninterference (symptoms : list string)
    (hp : option HealthProfile) (history1 history2 : list Message) :
  analyzeSymptoms symptoms hp history1 = analyzeSymptoms symptoms hp history2.
Proof. reflexivity. Qed.


(** ** More on severity scoring *)

Lemma scoring_init_inv :
  ScoringInv {| maxSeverity := Low; severityScore := 0 |}.
Proof. unfold ScoringInv; simpl; lia. Qed.

Lemma calculateSeverity_tierOfScoring (symptoms : list string)
    (hp : option HealthProfile) :
  calculateSeverity symptoms hp =
  tierOfScoring hp
    (Js.forEach symptoms scoreSymptom
       {| maxSeverity := Low; severityScore := 0 |}).
Proof. reflexivity. Qed.

Lemma adjustForProfile_bonus (hp : option HealthProfile) (score : Z) :
  adjustForProfile hp score = score + profileBonus hp.
Proof.
  unfold adjustForProfile, profileBonus. destruct hp as [h|]; simpl; [|lia].
  destruct (nonEmpty (knownConditions h)); destruct (olderThan65 (age h)); lia.
Qed.

Lemma profileBonus_range (hp : option HealthProfile) :
  0 <= profileBonus hp <= 2.
Proof.
  unfold profileBonus. destruct hp as [h|]; simpl; [|lia].
  destruct (nonEmpty (knownConditions h)); destruct (olderThan65 (age h)); lia.
Qed.

Lemma scoreSymptom_score (st : Scoring) (p : string) :
  severityScore (snd (scoreSymptom st p)) = severityScore st + phraseWeight p.
Proof.
  unfold scoreSymptom, phraseWeight.
  destruct (findSymptomData p) as [d|]; [|simpl; lia].
  destruct (Entry.severity d); simpl; lia.
Qed.

Lemma forEach_score (symptoms : list string) (st : Scoring) :
  severityScore (Js.forEach symptoms scoreSymptom st) =
  severityScore st + symptomScore symptoms.
Proof.
  revert st. induction symptoms as [|p l IH]; intros st; simpl; [lia|].
  rewrite IH, scoreSymptom_score. lia.
Qed.

Lemma scoreSymptom_keeps_above_low (st : Scoring) (p : string) :
  maxSeverity st <> Low -> maxSeverity (snd (scoreSymptom st p)) <> Low.
Proof.
  unfold scoreSymptom. destruct (findSymptomData p) as [d|]; trivial.
  destruct (Entry.severity d); simpl; trivial; try discriminate.
  now destruct (maxSeverity st).
Qed.

Lemma forEach_keeps_above_low (symptoms : list string) (st : Scoring) :
  maxSeverity st <> Low ->
  maxSeverity (Js.forEach symptoms scoreSymptom st) <> Low.
Proof.
  apply (forEach_invariant scoreSymptom (fun st => maxSeverity st <> Low)).
  intros st' x. apply scoreSymptom_keeps_above_low.
Qed.

(** A moderate entry met leaves the highest tier above "low". *)
Lemma findsTier_Moderate_max (symptoms : list string) (st : Scoring) :
  findsTier symptoms Moderate ->
  maxSeverity (Js.forEach symptoms scoreSymptom st) <> Low.
Proof.
  intros [p [d [Hin [Hf Hs]]]]. revert st.
  induction symptoms as [|q l IH]; intros st; [contradiction|].
  cbn [Js.forEach]. destruct Hin as [->|Hin].
  - apply forEach_keeps_above_low. unfold scoreSymptom. rewrite Hf, Hs. simpl.
    now destruct (maxSeverity st).
  - now apply IH.
Qed.

(** The highest tier is "moderate" only where a moderate entry was met. *)
Lemma max_Moderate_findsTier (symptoms : list string) (st : Scoring) :
  maxSeverity (Js.forEach symptoms scoreSymptom st) = Moderate ->
  maxSeverity st = Moderate \/ findsTier symptoms Moderate.
Proof.
  revert st. induction symptoms as [|q l IH]; intros st H; [now left|].
  cbn [Js.forEach] in H. apply IH in H. destruct H as [H|[p [d [Hin H]]]].
  - unfold scoreSymptom in H.
    destruct (findSymptomData q) as [d|] eqn:Hf; [|now left].
    destruct (Entry.severity d) eqn:Hs; simpl in H; try discriminate; auto.
    right. exists q, d. simpl. auto.
  - right. exists p, d. simpl. tauto.
Qed.

Lemma scoreSymptom_comm (st : Scoring) (a b : string) :
  snd (scoreSymptom (snd (scoreSymptom st a)) b) =
  snd (scoreSymptom (snd (scoreSymptom st b)) a).
Proof.
  unfold scoreSymptom.
  destruct (findSymptomData a) as [da|]; destruct (findSymptomData b) as [db|];
    trivial;
    destruct (Entry.severity da); destruct (Entry.severity db);
    simpl; trivial; destruct (maxSeverity st); f_equal; lia.
Qed.

Lemma forEach_scoreSymptom_perm (l l' : list string) :
  Permutation l l' ->
  forall st, Js.forEach l scoreSymptom st = Js.forEach l' scoreSymptom st.
Proof.
  induction 1 as [|x l l' _ IH|x y l|l l' l'' _ IH1 _ IH2]; intros st.
  - reflexivity.
  - simpl. apply IH.
  - simpl. now rewrite scoreSymptom_comm.
  - now rewrite IH1.
Qed.

Lemma existsb_perm {A : Type} (f : A -> bool) (l l' : list A) :
  Permutation l l' -> existsb f l = existsb f l'.
Proof.
  induction 1 as [|x l l' _ IH|x y l|l l' l'' _ IH1 _ IH2]; simpl.
  - reflexivity.
  - now rewrite IH.
  - destruct (f x); destruct (f y); reflexivity.
  - congruence.
Qed.

Lemma scoreSymptom_le (st st' : Scoring) (p : string) :
  ScoringInv st -> ScoringInv st' -> ScoringLe st st' ->
  ScoringLe (snd (scoreSymptom st p)) (snd (scoreSymptom st' p)).
Proof.
  unfold ScoringInv, ScoringLe, tierLe, scoreSymptom.
  destruct (findSymptomData p) as [d|]; trivial.
  destruct (Entry.severity d); simpl; trivial;
    destruct (maxSeverity st); destruct (maxSeverity st'); simpl; lia.
Qed.

Lemma ScoringLe_trans (a b c : Scoring) :
  ScoringLe a b -> ScoringLe b c -> ScoringLe a c.
Proof. unfold ScoringLe, tierLe. lia. Qed.

Lemma forEach_subseq_le (l1 l2 : list string) :
  Subsequence l1 l2 ->
  forall st st', ScoringInv st -> ScoringInv st' -> ScoringLe st st' ->
  ScoringLe (Js.forEach l1 scoreSymptom st) (Js.forEach l2 scoreSymptom st').
Proof.
  induction 1 as [|x l1 l2 _ IH|x l1 l2 _ IH]; intros st st' Hi Hi' Hle.
  - exact Hle.
  - cbn [Js.forEach]. apply IH; trivial.
    + now apply scoreSymptom_inv.
    + apply (ScoringLe_trans _ st'); trivial.
      now apply scoreSymptom_mono.
  - cbn [Js.forEach]. apply IH.
    + now apply scoreSymptom_inv.
    + now apply scoreSymptom_inv.
    + now apply scoreSymptom_le.
Qed.

Lemma tierOfScoring_mono (hp : option HealthProfile) (st st' : Scoring) :
  ScoringInv st -> ScoringInv st' -> ScoringLe st st' ->
  tierLe (tierOfScoring hp st) (tierOfScoring hp st').
Proof.
  unfold tierOfScoring, ScoringInv, ScoringLe, tierLe.
  rewrite !adjustForProfile_bonus.
  pose proof (profileBonus_range hp).
  repeat match goal with
         | |- context [?a <=? ?b] => destruct (Z.leb_spec a b)
         end;
    destruct (maxSeverity st); destruct (maxSeverity st'); simpl; lia.
Qed.

Lemma tierOfScoring_profile (hp : option HealthProfile) (st : Scoring) :
  ScoringInv st -> tierLe (tierOfScoring None st) (tierOfScoring hp st).
Proof.
  unfold tierOfScoring, ScoringInv, tierLe.
  rewrite !adjustForProfile_bonus.
  pose proof (profileBonus_range hp). pose proof (profileBonus_range None).
  assert (profileBonus None = 0) by reflexivity.
  repeat match goal with
         | |- context [?a <=? ?b] => destruct (Z.leb_spec a b)
         end;
    destruct (maxSeverity st); simpl; lia.
Qed.

Lemma Subsequence_map {A B : Type} (f : A -> B) (l1 l2 : list A) :
  Subsequence l1 l2 -> Subsequence (map f l1) (map f l2).
Proof. induction 1; simpl; now constructor. Qed.

Lemma existsb_Subsequence {A : Type} (f : A -> bool) (l1 l2 : list A) :
  Subsequence l1 l2 -> existsb f l1 = true -> existsb f l2 = true.
Proof.
  intros Hs H. apply existsb_exists in H. destruct H as [x [Hx Hf]].
  apply existsb_exists. exists x. split; trivial.
  now apply (Subsequence_In l1 l2).
Qed.

(** X1: the severity of a result is "emergency" exactly when its emergency
    flag is set: the scoring path never produces that tier. *)
Theorem X1_emergency_severity_iff_flag (symptoms : list string)
    (hp : option HealthProfile) (history : list Message) :
  Result.severity (analyzeSymptoms symptoms hp history) = Emergency <->
  Result.emergencyDetected (analyzeSymptoms symptoms hp history) = true.
Proof.
  rewrite emergencyDetected_checkEmergency. unfold analyzeSymptoms.
  destruct (checkEmergency (normalize symptoms)); simpl.
  - tauto.
  - split; [|discriminate]. intros H.
    now apply calculateSeverity_not_emergency in H.
Qed.

(** X2: the tier [calculateSeverity] returns, from the total score (3, 2
    and 1 per phrase whose entry is high, moderate and low, nothing for an
    emergency-tier entry or no entry, plus the profile's 0 to 2 points):
    "high" exactly from 5 on; "moderate" exactly below 5 when the total is
    at least 3 or a moderate entry was found; "low" otherwise. *)
Theorem X2_calculateSeverity_thresholds (symptoms : list string)
    (hp : option HealthProfile) :
  0 <= profileBonus hp <= 2 /\
  (calculateSeverity symptoms hp = High <->
   5 <= symptomScore symptoms + profileBonus hp) /\
  (calculateSeverity symptoms hp = Moderate <->
   symptomScore symptoms + profileBonus hp < 5 /\
   (3 <= symptomScore symptoms + profileBonus hp \/
    findsTier symptoms Moderate)) /\
  (calculateSeverity symptoms hp = Low <->
   symptomScore symptoms + profileBonus hp < 3 /\
   ~ findsTier symptoms Moderate).
Proof.
  split; [apply profileBonus_range|].
  pose proof (profileBonus_range hp) as Hb.
  rewrite calculateSeverity_tierOfScoring. unfold tierOfScoring.
  rewrite adjustForProfile_bonus, forEach_score. cbn [severityScore].
  set (st0 := {| maxSeverity := Low; severityScore := 0 |}).
  pose proof (scoring_inv symptoms) as Hinv. fold st0 in Hinv.
  pose proof (forEach_score symptoms st0) as Hsc. cbn [severityScore st0] in Hsc.
  pose proof (max_Moderate_findsTier symptoms st0) as HA.
  pose proof (findsTier_Moderate_max symptoms st0) as HB.
  unfold ScoringInv in Hinv.
  set (st := Js.forEach symptoms scoreSymptom st0) in *.
  replace (0 + symptomScore symptoms) with (symptomScore symptoms) in * by lia.
  destruct (Z.leb_spec 5 (symptomScore symptoms + profileBonus hp)) as [H5|H5].
  { repeat split; intros; try discriminate; try lia; tauto. }
  destruct (Z.leb_spec 3 (symptomScore symptoms + profileBonus hp)) as [H3|H3].
  { repeat split; intros; try discriminate; try lia; tauto. }
  destruct (maxSeverity st) eqn:Hm.
  - repeat split; intros; try discriminate; try lia.
    + destruct H as [_ [H|H]]; [lia|]. now apply HB in H.
    + intros H'. now apply HB in H'.
  - repeat split; intros; try discriminate; try lia.
    + right. destruct HA as [HA|HA]; trivial. discriminate HA.
    + destruct H as [_ H]. exfalso. apply H.
      destruct HA as [HA|HA]; trivial. discriminate HA.
  - lia.
  - contradiction.
Qed.

(** X3: the order of the phrases has no influence on severity, emergency
    flag and recommendations. *)
Theorem X3_order_independence (l l' : list string)
    (hp : option HealthProfile) (history : list Message) :
  Permutation l l' ->
  Result.severity (analyzeSymptoms l hp history)
    = Result.severity (analyzeSymptoms l' hp history) /\
  Result.emergencyDetected (analyzeSymptoms l hp history)
    = Result.emergencyDetected (analyzeSymptoms l' hp history) /\
  Result.recommendations (analyzeSymptoms l hp history)
    = Result.recommendations (analyzeSymptoms l' hp history).
Proof.
  intros Hp.
  assert (Hn : Permutation (normalize l) (normalize l'))
    by now apply Permutation_map.
  assert (Hc : calculateSeverity (normalize l) hp
               = calculateSeverity (normalize l') hp).
  { unfold calculateSeverity.
    now rewrite (forEach_scoreSymptom_perm _ _ Hn). }
  unfold analyzeSymptoms, checkEmergency, Js.some.
  rewrite (existsb_perm _ _ _ Hn).
  destruct (existsb _ (normalize l')); cbn [Result.severity
    Result.emergencyDetected Result.recommendations]; auto.
  repeat split; trivial.
  rewrite !generateRecommendations_blocks, Hc. unfold Js.some.
  now rewrite !(existsb_perm _ _ _ Hn).
Qed.

Lemma X3_order_independence_witness :
  Permutation ["fever"; "cough"] ["cough"; "fever"] /\
  Result.severity (analyzeSymptoms ["fever"; "cough"] None [])
    = Result.severity (analyzeSymptoms ["cough"; "fever"] None []).
Proof.
  split; [apply perm_swap|].
  exact (proj1 (X3_order_independence ["fever"; "cough"] ["cough"; "fever"]
                  None [] (perm_swap _ _ _))).
Defined.

(** X4: a health profile never lowers the severity tier the same phrases
    get without one. *)
Theorem X4_profile_never_lowers (symptoms : list string)
    (hp : option HealthProfile) (history : list Message) :
  tierLe (Result.severity (analyzeSymptoms symptoms None history))
         (Result.severity (analyzeSymptoms symptoms hp history)).
Proof.
  unfold analyzeSymptoms.
  destruct (checkEmergency (normalize symptoms)); cbn [Result.severity].
  - apply tierLe_Emergency.
  - rewrite !calculateSeverity_tierOfScoring.
    apply tierOfScoring_profile, scoring_inv.
Qed.

(** X5: leaving phrases out of a symptom list, anywhere in it, never raises
    the severity tier. *)
Theorem X5_fewer_phrases_never_higher (l l' : list string)
    (hp : option HealthProfile) (history : list Message) :
  Subsequence l l' ->
  tierLe (Result.severity (analyzeSymptoms l hp history))
         (Result.severity (analyzeSymptoms l' hp history)).
Proof.
  intros Hs. apply (Subsequence_map normalizePhrase) in Hs.
  fold (normalize l) in Hs. fold (normalize l') in Hs.
  unfold analyzeSymptoms.
  destruct (checkEmergency (normalize l)) eqn:E.
  - unfold checkEmergency, Js.some in *.
    now rewrite (existsb_Subsequence _ _ _ Hs E).
  - destruct (checkEmergency (normalize l')); cbn [Result.severity].
    + apply tierLe_Emergency.
    + rewrite !calculateSeverity_tierOfScoring.
      apply tierOfScoring_mono; try apply scoring_inv.
      apply forEach_subseq_le; trivial; try apply scoring_init_inv.
      unfold ScoringLe, tierLe. lia.
Qed.

Lemma X5_fewer_phrases_never_higher_witness :
  Subsequence ["cough"] ["fever"; "cough"; "vomiting"] /\
  tierLe (Result.severity (analyzeSymptoms ["cough"] None []))
         (Result.severity
            (analyzeSymptoms ["fever"; "cough"; "vomiting"] None [])).
Proof.
  assert (H : Subsequence ["cough"] ["fever"; "cough"; "vomiting"]).
  { apply Subsequence_skip, Subsequence_keep, Subsequence_skip.
    apply Subsequence_nil. }
  split; [exact H|].
  exact (X5_fewer_phrases_never_higher ["cough"]
           ["fever"; "cough"; "vomiting"] None [] H).
Defined.

(** ** More on strings *)

Section MoreStringFacts.

Lemma append_assoc (a b c : string) :
  ((a ++ b) ++ c)%string = (a ++ (b ++ c))%string.
Proof. induction a as [|x a IH]; simpl; [reflexivity | now rewrite IH]. Qed.

Lemma append_nil_r (a : string) : (a ++ EmptyString)%string = a.
Proof. induction a as [|x a IH]; simpl; [reflexivity | now rewrite IH]. Qed.

Lemma length_append (a b : string) :
  String.length (a ++ b) = (String.length a + String.length b)%nat.
Proof. induction a as [|x a IH]; simpl; [reflexivity | now rewrite IH]. Qed.

Lemma length_zero (a : string) : String.length a = 0%nat -> a = EmptyString.
Proof. destruct a; [reflexivity | discriminate]. Qed.

Lemma Substring_refl (s : string) : Substring s s.
Proof. exists EmptyString, EmptyString. simpl. now rewrite append_nil_r. Qed.

Lemma Substring_trans (a b c : string) :
  Substring a b -> Substring b c -> Substring a c.
Proof.
  intros [p [q ->]] [p' [q' ->]]. exists (p' ++ p)%string, (q ++ q')%string.
  now rewrite !append_assoc.
Qed.

Lemma Substring_app_l (t a b : string) :
  Substring t a -> Substring t (a ++ b)%string.
Proof.
  intros [p [q ->]]. exists p, (q ++ b)%string. now rewrite !append_assoc.
Qed.

Lemma Substring_app_r (t a b : string) :
  Substring t b -> Substring t (a ++ b)%string.
Proof.
  intros [p [q ->]]. exists (a ++ p)%string, q. now rewrite !append_assoc.
Qed.

Lemma Substring_length (t s : string) :
  Substring t s -> (String.length t <= String.length s)%nat.
Proof. intros [p [q ->]]. rewrite !length_append. lia. Qed.

Lemma Substring_antisym (a b : string) :
  Substring a b -> Substring b a -> a = b.
Proof.
  intros [p [q Hb]] Hba. apply Substring_length in Hba.
  rewrite Hb, !length_append in Hba.
  assert (p = EmptyString) by (apply length_zero; lia).
  assert (q = EmptyString) by (apply length_zero; lia).
  subst. simpl. now rewrite append_nil_r.
Qed.

Lemma toLowerCase_app (a b : string) :
  Js.toLowerCase (a ++ b) = (Js.toLowerCase a ++ Js.toLowerCase b)%string.
Proof. induction a as [|x a IH]; simpl; [reflexivity | now rewrite IH]. Qed.

Lemma Substring_toLowerCase (t s : string) :
  Substring t s -> Substring (Js.toLowerCase t) (Js.toLowerCase s).
Proof.
  intros [p [q ->]]. exists (Js.toLowerCase p), (Js.toLowerCase q).
  now rewrite !toLowerCase_app.
Qed.

Lemma includes_mono (s s' t : string) :
  Substring s s' -> Js.includes s t = true -> Js.includes s' t = true.
Proof.
  rewrite !includes_spec. intros H Ht. now apply (Substring_trans t s s').
Qed.

End MoreStringFacts.

(** ** The lookup *)

Lemma related_spec (symptom key : string) :
  (Js.includes symptom key || Js.includes key symptom)%bool = true <->
  related symptom key.
Proof. unfold related. now rewrite orb_true_iff, !includes_spec. Qed.

Lemma findIn_Some (table : list (string * Entry.t)) (symptom : string)
    (d : Entry.t) :
  findIn table symptom = Some d <->
  exists pre key post,
    table = pre ++ (key, d) :: post /\ related symptom key /\
    forall k e, In (k, e) pre -> ~ related symptom k.
Proof.
  induction table as [|[key value] table IH]; simpl.
  - split; [discriminate|]. intros [pre [k [post [H _]]]].
    now destruct pre.
  - destruct (Js.includes symptom key || Js.includes key symptom)%bool eqn:E.
    + apply related_spec in E. split.
      * intros [= ->]. exists [], key, table. simpl. tauto.
      * intros [pre [k [post [H [Hr Hpre]]]]].
        destruct pre as [|[k0 e0] pre]; simpl in H.
        -- now inversion H.
        -- injection H as Hk He _. subst k0 e0. exfalso.
           apply (Hpre key value); [now left | exact E].
    + assert (Hn : ~ related symptom key)
        by (rewrite <- related_spec, E; discriminate).
      rewrite IH. split.
      * intros [pre [k [post [H [Hr Hpre]]]]].
        exists ((key, value) :: pre), k, post. subst table.
        split; [reflexivity|]. split; [assumption|].
        intros k0 e0 [[= <- <-]|Hin]; [assumption | now apply (Hpre k0 e0)].
      * intros [pre [k [post [H [Hr Hpre]]]]].
        destruct pre as [|[k0 e0] pre]; simpl in H.
        -- inversion H; subst. contradiction.
        -- inversion H; subst. exists pre, k, post.
           split; [reflexivity|]. split; [assumption|].
           intros k1 e1 Hin. apply (Hpre k1 e1). now right.
Qed.

Lemma findIn_None (table : list (string * Entry.t)) (symptom : string) :
  findIn table symptom = None <->
  forall k e, In (k, e) table -> ~ related symptom k.
Proof.
  induction table as [|[key value] table IH]; simpl.
  - split; [intros _ k e [] | reflexivity].
  - destruct (Js.includes symptom key || Js.includes key symptom)%bool eqn:E.
    + apply related_spec in E. split; [discriminate|].
      intros H. exfalso. apply (H key value); [now left | exact E].
    + assert (Hn : ~ related symptom key)
        by (rewrite <- related_spec, E; discriminate).
      rewrite IH. split.
      * intros H k e [[= <- <-]|Hin]; [assumption | now apply (H k e)].
      * intros H k e Hin. apply (H k e). now right.
Qed.

(** X6: the lookup is first-match-wins over the table in declaration
    order: it returns the entry of the first key that contains the phrase
    or is contained in it, and nothing exactly when no key is so related. *)
Theorem X6_findSymptomData_first_match (symptom : string) :
  (forall d,
     findSymptomData symptom = Some d <->
     exists pre key post,
       symptomDatabase = pre ++ (key, d) :: post /\ related symptom key /\
       forall k e, In (k, e) pre -> ~ related symptom k) /\
  (findSymptomData symptom = None <->
   forall k e, In (k, e) symptomDatabase -> ~ related symptom k).
Proof.
  split.
  - intros d. apply findIn_Some.
  - apply findIn_None.
Qed.

(** ** Phrases contained in a key *)

Lemma keyword_in_chest_pain (kw : string) :
  In kw emergencySymptoms -> Substring kw "chest pain" -> kw = "chest pain".
Proof.
  intros Hin H. apply includes_spec in H. simpl in Hin.
  repeat (destruct Hin as [<-|Hin]; [first [reflexivity | discriminate H]|]).
  contradiction.
Qed.

Lemma part_of_chest_pain_no_keyword (q : string) :
  Substring q "chest pain" -> q <> "chest pain" -> checkEmergency [q] = false.
Proof.
  intros Hq Hne. destruct (checkEmergency [q]) eqn:E; trivial.
  apply checkEmergency_spec in E. destruct E as [p [kw [[<-|[]] [Hkw H]]]].
  assert (kw = "chest pain")
    by (apply keyword_in_chest_pain; [|apply (Substring_trans kw q)]; trivial).
  subst kw. exfalso. apply Hne. now apply Substring_antisym.
Qed.

(** X7: a phrase that is only a part of the first key, "chest pain" (the
    empty phrase, "pain", "chest", a letter), is looked up as the chest-pain
    entry; alone, it is not an emergency and is classified "moderate", or
    "high" with both profile points. *)
Theorem X7_part_of_chest_pain (s : string) (hp : option HealthProfile)
    (history : list Message) :
  Substring (normalizePhrase s) "chest pain" ->
  normalizePhrase s <> "chest pain" ->
  findSymptomData (normalizePhrase s) = findSymptomData "chest pain" /\
  Result.emergencyDetected (analyzeSymptoms [s] hp history) = false /\
  Result.severity (analyzeSymptoms [s] hp history)
    = (if profileBonus hp =? 2 then High else Moderate).
Proof.
  intros Hq Hne.
  assert (Hf : findSymptomData (normalizePhrase s)
               = findSymptomData "chest pain").
  { apply includes_spec in Hq. unfold findSymptomData, symptomDatabase.
    cbn [findIn]. rewrite Hq, orb_true_r. reflexivity. }
  split; [exact Hf|].
  unfold analyzeSymptoms. cbn [normalize map].
  rewrite (part_of_chest_pain_no_keyword _ Hq Hne).
  split; [reflexivity|]. cbn [Result.severity].
  rewrite calculateSeverity_tierOfScoring. cbn [Js.forEach].
  unfold scoreSymptom. rewrite Hf.
  unfold tierOfScoring. rewrite adjustForProfile_bonus.
  pose proof (profileBonus_range hp) as Hb.
  change (findSymptomData "chest pain")
    with (Some (Entry.mk ["cardiovascular"] High true
                  ["heart attack"; "angina"; "pulmonary embolism"])).
  cbn [Entry.severity snd severityScore maxSeverity].
  destruct (Z.eqb_spec (profileBonus hp) 2) as [->|Hn2]; [reflexivity|].
  destruct (Z.leb_spec 5 (0 + 3 + profileBonus hp)); [lia|].
  destruct (Z.leb_spec 3 (0 + 3 + profileBonus hp)); [reflexivity | lia].
Qed.

Lemma X7_part_of_chest_pain_witness :
  Substring (normalizePhrase " Pain ") "chest pain" /\
  normalizePhrase " Pain " <> "chest pain" /\
  Result.severity (analyzeSymptoms [" Pain "] None []) = Moderate.
Proof.
  assert (H1 : Substring (normalizePhrase " Pain ") "chest pain").
  { exists "chest ", EmptyString. reflexivity. }
  assert (H2 : normalizePhrase " Pain " <> "chest pain").
  { intros H. discriminate H. }
  split; [exact H1|]. split; [exact H2|].
  exact (proj2 (proj2 (X7_part_of_chest_pain " Pain " None [] H1 H2))).
Defined.

(** ** More on the condition list *)

Lemma relatedConditions_nonempty (symptom : string) (d : Entry.t) :
  findSymptomData symptom = Some d -> Entry.relatedConditions d <> [].
Proof.
  intros H. apply findIn_In in H. simpl in H.
  repeat (destruct H as [<-|H]; [discriminate|]). contradiction.
Qed.

Lemma encounteredConditions_nil (symptoms : list string) :
  encounteredConditions symptoms = [] <->
  forall p, In p symptoms -> findSymptomData p = None.
Proof.
  unfold encounteredConditions.
  induction symptoms as [|q l IH]; simpl.
  - split; [intros _ p [] | reflexivity].
  - destruct (findSymptomData q) as [d|] eqn:E.
    + split.
      * intros H. apply app_eq_nil in H. destruct H as [H _].
        now apply relatedConditions_nonempty in E.
      * intros H. specialize (H q (or_introl eq_refl)). congruence.
    + simpl. rewrite IH. split.
      * intros H p [<-|Hp]; auto.
      * intros H p Hp. apply H. now right.
Qed.

Lemma NoDup_firstn {A : Type} (n : nat) (l : list A) :
  NoDup l -> NoDup (firstn n l).
Proof.
  intros H. rewrite <- (firstn_skipn n l) in H.
  now apply NoDup_app_remove_r in H.
Qed.

Lemma In_firstn {A : Type} (n : nat) (l : list A) (x : A) :
  In x (firstn n l) -> In x l.
Proof.
  intros H. rewrite <- (firstn_skipn n l). apply in_or_app. now left.
Qed.

Lemma ranked_names (symptoms : list string) :
  Permutation
    (map fst
       (Js.sort
          (map (fun c => (c, listingCount symptoms c))
             (firstEncounter (encounteredConditions symptoms)))
          byFrequency))
    (firstEncounter (encounteredConditions symptoms)).
Proof.
  rewrite (Permutation_map fst (sort_perm byFrequency _)).
  rewrite map_map. simpl. now rewrite map_id.
Qed.

(** X8: the condition list has at most 5 entries, names no condition twice,
    names only related conditions of entries found for the phrases, and is
    empty exactly when no phrase finds an entry. *)
Theorem X8_possible_conditions_sound (symptoms : list string) :
  (length (identifyPossibleConditions symptoms) <= 5)%nat /\
  NoDup (map condition (identifyPossibleConditions symptoms)) /\
  (forall c,
     In c (map condition (identifyPossibleConditions symptoms)) ->
     exists p d, In p symptoms /\ findSymptomData p = Some d /\
                 In c (Entry.relatedConditions d)) /\
  (identifyPossibleConditions symptoms = [] <->
   forall p, In p symptoms -> findSymptomData p = None).
Proof.
  rewrite identifyPossibleConditions_ranked.
  set (ranked := Js.sort _ byFrequency).
  pose proof (ranked_names symptoms) as Hperm. fold ranked in Hperm.
  assert (Hnames : map condition (map toCondition (firstn 5 ranked))
                   = firstn 5 (map fst ranked)).
  { rewrite map_map, firstn_map. reflexivity. }
  split; [rewrite length_map, length_firstn; lia|].
  split; [|split].
  - rewrite Hnames. apply NoDup_firstn.
    apply (Permutation_NoDup (Permutation_sym Hperm)).
    apply firstEncounter_NoDup.
  - intros c Hc. rewrite Hnames in Hc. apply In_firstn in Hc.
    apply (Permutation_in _ Hperm) in Hc.
    apply (proj1 (firstEncounter_In _ _)) in Hc.
    unfold encounteredConditions in Hc. apply in_flat_map in Hc.
    destruct Hc as [p [Hp Hc]].
    destruct (findSymptomData p) as [d|] eqn:E; [|contradiction].
    now exists p, d.
  - rewrite <- encounteredConditions_nil.
    assert (Hlen : length (map toCondition (firstn 5 ranked))
                   = Nat.min 5 (length (firstEncounter
                                          (encounteredConditions symptoms)))).
    { rewrite length_map, length_firstn.
      now rewrite <- (Permutation_length Hperm), length_map. }
    split.
    + intros H. rewrite H in Hlen. simpl in Hlen.
      destruct (encounteredConditions symptoms); [reflexivity|].
      simpl in Hlen. lia.
    + intros H. rewrite H in Hlen. simpl in Hlen.
      now apply length_zero_iff_nil.
Qed.

Lemma StronglySorted_firstn {A : Type} (R : A -> A -> Prop) (n : nat)
    (l : list A) :
  StronglySorted R l -> StronglySorted R (firstn n l).
Proof.
  intros H. revert n. induction H as [|x l Hl IH Hx]; intros n.
  - rewrite firstn_nil. constructor.
  - destruct n; simpl; constructor; auto.
    apply Forall_forall. intros y Hy. apply In_firstn in Hy.
    rewrite Forall_forall in Hx. auto.
Qed.

Lemma sorted_likelihoods (l : list (string * Z)) :
  StronglySorted Descending l ->
  exists k m,
    map (fun e => likelihood (toCondition e)) l =
    repeat LikelihoodHigh k ++ repeat LikelihoodModerate m.
Proof.
  induction 1 as [|x l Hl IH Hx].
  - now exists 0%nat, 0%nat.
  - cbn [map]. unfold toCondition at 1. cbn [likelihood].
    destruct (Z.ltb_spec 1 (snd x)) as [Hh|Hm].
    + destruct IH as [k [m IH]]. exists (S k), m. cbn [repeat app].
      now rewrite IH.
    + exists 0%nat, (S (length l)). cbn [repeat app]. f_equal.
      clear IH Hl. induction l as [|y l IH]; trivial.
      inversion Hx as [|? ? Hy Hx']; subst. cbn [map length repeat].
      unfold toCondition at 1. cbn [likelihood].
      unfold Descending in Hy.
      destruct (Z.ltb_spec 1 (snd y)); [lia|]. now rewrite IH.
Qed.

(** X9: in the condition list every entry of likelihood "high" comes before
    every entry of likelihood "moderate". *)
Theorem X9_high_likelihood_first (symptoms : list string) :
  exists k m,
    map likelihood (identifyPossibleConditions symptoms) =
    repeat LikelihoodHigh k ++ repeat LikelihoodModerate m.
Proof.
  rewrite identifyPossibleConditions_ranked, map_map.
  apply sorted_likelihoods, StronglySorted_firstn, sort_sorted.
Qed.

(** ** More on the recommendations *)

Lemma distinctb_sound (l : list string) : distinctb l = true -> NoDup l.
Proof.
  induction l as [|x l IH]; simpl; [constructor|].
  rewrite andb_true_iff, negb_true_iff. intros [Hx Hl].
  constructor; [|now apply IH].
  intros Hin. apply mem_In in Hin. congruence.
Qed.

Lemma generateRecommendations_distinct (symptoms : list string)
    (severity : Severity) (hp : option HealthProfile)
    (conds : list Condition) :
  NoDup (generateRecommendations symptoms severity hp conds) /\
  (2 <= length (generateRecommendations symptoms severity hp conds) <= 13)%nat.
Proof.
  rewrite generateRecommendations_blocks.
  destruct (Js.some symptoms (fun s => Js.includes s "fever"));
    destruct (Js.some symptoms (fun s => Js.includes s "cough"));
    destruct (nonEmpty (profileConditions hp));
    destruct (nonEmpty (profileMedications hp));
    destruct severity;
    (split; [apply distinctb_sound; vm_compute; reflexivity | simpl; lia]).
Qed.

(** X10: the recommendation list of a result never repeats a string and
    has between 2 and 13 entries. *)
Theorem X10_recommendations_distinct (symptoms : list string)
    (hp : option HealthProfile) (history : list Message) :
  NoDup (Result.recommendations (analyzeSymptoms symptoms hp history)) /\
  (2 <= length (Result.recommendations (analyzeSymptoms symptoms hp history))
   <= 13)%nat.
Proof.
  unfold analyzeSymptoms.
  destruct (checkEmergency (normalize symptoms)); cbn [Result.recommendations].
  - split; [apply distinctb_sound; vm_compute; reflexivity | simpl; lia].
  - apply generateRecommendations_distinct.
Qed.

(** ** The conversational response *)

Lemma recommendationLine_extends (recs : list string) (t response : string) :
  Substring t response ->
  Substring t (Js.forEach recs recommendationLine response).
Proof.
  revert response. induction recs as [|x recs IH]; intros response H; trivial.
  cbn [Js.forEach]. apply IH. unfold recommendationLine. cbn [snd].
  now apply Substring_app_l.
Qed.

Lemma recommendationLine_printed (recs : list string) (rec response : string) :
  In rec recs ->
  Substring ("• " ++ rec ++ newline)%string
    (Js.forEach recs recommendationLine response).
Proof.
  revert response. induction recs as [|x recs IH]; intros response; [intros []|].
  intros [->|Hin]; cbn [Js.forEach].
  - apply recommendationLine_extends. unfold recommendationLine. cbn [snd].
    apply Substring_app_r, Substring_refl.
  - now apply IH.
Qed.

Lemma conditionLine_extends (conds : list Condition) (t response : string) :
  Substring t response ->
  Substring t (Js.forEach conds conditionLine response).
Proof.
  revert response. induction conds as [|x conds IH]; intros response H; trivial.
  cbn [Js.forEach]. apply IH. unfold conditionLine. cbn [snd].
  now apply Substring_app_l.
Qed.

Lemma conditionLine_printed (conds : list Condition) (pc : Condition)
    (response : string) :
  In pc conds ->
  Substring ("• " ++ condition pc ++ " (" ++ likelihoodName (likelihood pc)
             ++ " likelihood)" ++ newline)%string
    (Js.forEach conds conditionLine response).
Proof.
  revert response.
  induction conds as [|x conds IH]; intros response; [intros []|].
  intros [->|Hin]; cbn [Js.forEach].
  - apply conditionLine_extends. unfold conditionLine. cbn [snd].
    apply Substring_app_r, Substring_refl.
  - now apply IH.
Qed.

(** X11: the text for an emergency does not depend on the symptoms, the
    profile or the history: any two analyses with the emergency flag set
    are rendered as the same text. *)
Theorem X11_emergency_text_fixed (l1 l2 : list string)
    (hp1 hp2 p1 p2 : option HealthProfile) (h1 h2 : list Message) :
  Result.emergencyDetected (analyzeSymptoms l1 hp1 h1) = true ->
  Result.emergencyDetected (analyzeSymptoms l2 hp2 h2) = true ->
  generateResponse (analyzeSymptoms l1 hp1 h1) p1 =
  generateResponse (analyzeSymptoms l2 hp2 h2) p2.
Proof.
  rewrite !emergencyDetected_checkEmergency. intros H1 H2.
  rewrite (analyzeSymptoms_emergency l1 hp1 h1 H1).
  rewrite (analyzeSymptoms_emergency l2 hp2 h2 H2).
  reflexivity.
Qed.

Lemma X11_emergency_text_fixed_witness :
  Result.emergencyDetected (analyzeSymptoms ["chest pain"] None []) = true /\
  Result.emergencyDetected
    (analyzeSymptoms ["fever"; "suicidal thoughts"] None []) = true /\
  generateResponse (analyzeSymptoms ["chest pain"] None []) None =
  generateResponse
    (analyzeSymptoms ["fever"; "suicidal thoughts"] None []) None.
Proof.
  split; [reflexivity|]. split; [reflexivity|].
  exact (X11_emergency_text_fixed ["chest pain"]
           ["fever"; "suicidal thoughts"] None None None None [] []
           eq_refl eq_refl).
Defined.

(** X12: the text drops nothing: every recommendation of the analysis is
    printed as a bullet line, for both shapes of response, and in a regular
    response so is every possible condition, with its likelihood. *)
Theorem X12_response_prints_everything (analysis : Result.t)
    (hp : option HealthProfile) :
  (forall rec,
     In rec (Result.recommendations analysis) ->
     Substring ("• " ++ rec ++ newline)%string
       (generateResponse analysis hp)) /\
  (Result.emergencyDetected analysis = false ->
   forall conds pc,
     Result.possibleConditions analysis = Some conds -> In pc conds ->
     Substring ("• " ++ condition pc ++ " ("
                ++ likelihoodName (likelihood pc)
                ++ " likelihood)" ++ newline)%string
       (generateResponse analysis hp)).
Proof.
  unfold generateResponse. split.
  - intros rec Hin. destruct (Result.emergencyDetected analysis).
    + now apply recommendationLine_printed.
    + apply Substring_app_l. now apply recommendationLine_printed.
  - intros -> conds pc Hc Hin. rewrite Hc.
    destruct conds as [|pc0 pcs]; [contradiction|].
    apply Substring_app_l, recommendationLine_extends.
    apply Substring_app_l, Substring_app_l.
    now apply conditionLine_printed.
Qed.

(** ** The chat controller's helpers *)

Lemma includes_lower_mono (a b k : string) :
  Substring a b ->
  Js.includes (Js.toLowerCase a) k = true ->
  Js.includes (Js.toLowerCase b) k = true.
Proof.
  intros H. apply includes_mono. now apply Substring_toLowerCase.
Qed.

Lemma Severity_eqb_eq (a b : Severity) : Severity_eqb a b = true <-> a = b.
Proof. destruct a; destruct b; simpl; split; congruence. Qed.

(** X13: [detectSeverity] answers "emergency", "moderate" or "low", never
    "high"; it answers "emergency" exactly when the lowercased text contains
    "emergency", "call 911" or "call 108", and [detectEmergency] is that
    test. *)
Theorem X13_detectSeverity_range (text : string) :
  detectSeverity text <> High /\
  (detectSeverity text = Emergency <->
   Substring "emergency" (Js.toLowerCase text) \/
   Substring "call 911" (Js.toLowerCase text) \/
   Substring "call 108" (Js.toLowerCase text)) /\
  (detectEmergency text = true <-> detectSeverity text = Emergency).
Proof.
  split; [|split].
  - unfold detectSeverity.
    destruct (_ || _ || _)%bool; [discriminate|].
    destruct (_ || _)%bool; discriminate.
  - rewrite <- !includes_spec, <- !orb_true_iff, orb_assoc.
    unfold detectSeverity.
    destruct (_ || _ || _)%bool; [tauto|].
    split; [|discriminate]. destruct (_ || _)%bool; discriminate.
  - apply Severity_eqb_eq.
Qed.

Lemma detectSeverity_Substring (a b : string) :
  Substring a b -> tierLe (detectSeverity a) (detectSeverity b).
Proof.
  intros H. unfold detectSeverity.
  pose proof (includes_lower_mono a b "emergency" H) as H1.
  pose proof (includes_lower_mono a b "call 911" H) as H2.
  pose proof (includes_lower_mono a b "call 108" H) as H3.
  pose proof (includes_lower_mono a b "seek medical" H) as H4.
  pose proof (includes_lower_mono a b "consult a doctor" H) as H5.
  destruct (Js.includes (Js.toLowerCase a) "emergency");
    [rewrite (H1 eq_refl) | clear H1].
  all: destruct (Js.includes (Js.toLowerCase a) "call 911");
    [rewrite (H2 eq_refl) | clear H2].
  all: destruct (Js.includes (Js.toLowerCase a) "call 108");
    [rewrite (H3 eq_refl) | clear H3].
  all: destruct (Js.includes (Js.toLowerCase a) "seek medical");
    [rewrite (H4 eq_refl) | clear H4].
  all: destruct (Js.includes (Js.toLowerCase a) "consult a doctor");
    [rewrite (H5 eq_refl) | clear H5].
  all: cbn [orb];
    repeat match goal with
           | |- context [Js.includes ?x ?y] => destruct (Js.includes x y)
           end;
    unfold tierLe; simpl; lia.
Qed.

(** X14: text around a text never lowers what [detectSeverity] answers. *)
Theorem X14_detectSeverity_monotone (a b : string) :
  Substring a b -> tierLe (detectSeverity a) (detectSeverity b).
Proof. apply detectSeverity_Substring. Qed.

Lemma X14_detectSeverity_monotone_witness :
  Substring "Call 911" "Please Call 911 now" /\
  tierLe (detectSeverity "Call 911") (detectSeverity "Please Call 911 now").
Proof.
  assert (H : Substring "Call 911" "Please Call 911 now").
  { exists "Please ", " now". reflexivity. }
  split; [exact H|].
  exact (X14_detectSeverity_monotone "Call 911" "Please Call 911 now" H).
Defined.

(** X15: the local backup answer is never read as less severe than the
    user's message itself: the message is echoed in the answer, or the
    answer is the emergency text. *)
Theorem X15_local_response_severity (message : string) :
  tierLe (detectSeverity message)
         (detectSeverity (generateSmartLocalResponse message)).
Proof.
  unfold generateSmartLocalResponse.
  destruct (_ || _)%bool.
  - apply tierLe_Emergency.
  - apply detectSeverity_Substring.
    exists localAdviceHead, localAdviceTail. reflexivity.
Qed.

(** X16: the local backup answers with its emergency text exactly when the
    lowercased message contains "chest", or both "pain" and "left"; that
    text is read back as an emergency; and a message from which "chest pain"
    is extracted gets it. *)
Theorem X16_local_emergency_branch (message : string) :
  (generateSmartLocalResponse message = localEmergencyText <->
   Substring "chest" (Js.toLowerCase message) \/
   (Substring "pain" (Js.toLowerCase message) /\
    Substring "left" (Js.toLowerCase message))) /\
  detectEmergency localEmergencyText = true /\
  (In "chest pain" (extractSymptoms message) ->
   generateSmartLocalResponse message = localEmergencyText).
Proof.
  assert (Hiff : generateSmartLocalResponse message = localEmergencyText <->
                 Substring "chest" (Js.toLowerCase message) \/
                 (Substring "pain" (Js.toLowerCase message) /\
                  Substring "left" (Js.toLowerCase message))).
  { rewrite <- !includes_spec, <- andb_true_iff, <- orb_true_iff.
    unfold generateSmartLocalResponse.
    destruct (_ || _)%bool; [tauto|].
    split; [|discriminate]. intros H. exfalso.
    unfold localAdviceHead, localEmergencyText in H. simpl in H.
    discriminate H. }
  split; [exact Hiff|]. split; [reflexivity|].
  intros Hin. apply Hiff. left.
  apply extractSymptoms_In in Hin. destruct Hin as [_ Hs].
  apply (Substring_trans "chest" "chest pain"); trivial.
  exists EmptyString, " pain". reflexivity.
Qed.

Lemma Subsequence_filter_impl {A : Type} (p q : A -> bool) (l : list A) :
  (forall x, p x = true -> q x = true) ->
  Subsequence (List.filter p l) (List.filter q l).
Proof.
  intros H. induction l as [|x l IH]; simpl; [constructor|].
  destruct (p x) eqn:E.
  - rewrite (H x E). now constructor.
  - destruct (q x); [now constructor | assumption].
Qed.

(** X17: extraction grows with the text: the symptoms extracted from a
    message are extracted, in the same order, from every text that contains
    the message. *)
Theorem X17_extractSymptoms_monotone (a b : string) :
  Substring a b -> Subsequence (extractSymptoms a) (extractSymptoms b).
Proof.
  intros H. unfold extractSymptoms, Js.filter.
  apply Subsequence_filter_impl. intros s. now apply includes_lower_mono.
Qed.

Lemma X17_extractSymptoms_monotone_witness :
  Substring "a Cough" "Fever, a Cough and a rash" /\
  Subsequence (extractSymptoms "a Cough")
              (extractSymptoms "Fever, a Cough and a rash").
Proof.
  assert (H : Substring "a Cough" "Fever, a Cough and a rash").
  { exists "Fever, ", " and a rash". reflexivity. }
  split; [exact H|].
  exact (X17_extractSymptoms_monotone "a Cough" "Fever, a Cough and a rash" H).
Defined.

Lemma vocabulary_emergency (w : string) :
  In w commonSymptoms ->
  Js.some emergencySymptoms (fun emergency =>
    Js.includes (normalizePhrase w) emergency)
  = String.eqb w "chest pain".
Proof.
  intros H. simpl in H.
  repeat (destruct H as [<-|H]; [reflexivity|]). contradiction.
Qed.

(** X18: when the extracted symptoms are what is classified, the result is
    an emergency exactly when "chest pain" was extracted, that is when the
    lowercased message contains it; and then "pain" was extracted too. *)
Theorem X18_extracted_symptoms_emergency (message : string)
    (hp : option HealthProfile) (history : list Message) :
  (Result.emergencyDetected
     (analyzeSymptoms (extractSymptoms message) hp history) = true <->
   Substring "chest pain" (Js.toLowerCase message)) /\
  (In "chest pain" (extractSymptoms message) ->
   In "pain" (extractSymptoms message)).
Proof.
  split.
  - rewrite emergencyDetected_checkEmergency.
    unfold checkEmergency, normalize. unfold Js.some at 1.
    rewrite existsb_exists. split.
    + intros [p [Hp H]]. apply in_map_iff in Hp.
      destruct Hp as [w [<- Hw]]. apply extractSymptoms_In in Hw.
      destruct Hw as [Hv Hs]. rewrite (vocabulary_emergency w Hv) in H.
      apply String.eqb_eq in H. now subst w.
    + intros H. exists (normalizePhrase "chest pain"). split.
      * apply in_map. apply extractSymptoms_In. split; trivial.
        simpl. tauto.
      * reflexivity.
  - rewrite !extractSymptoms_In. intros [_ H]. split; [simpl; tauto|].
    apply (Substring_trans "pain" "chest pain"); trivial.
    exists "chest ", EmptyString. reflexivity.
Qed.

(** ** The chat session model *)

Lemma setAdd_forEach (names seen : list string) :
  Js.forEach names setAdd seen =
  seen ++ List.filter (fun x => negb (mem x seen)) (firstEncounter names).
Proof.
  revert seen. induction names as [|c names IH]; intros seen.
  - simpl. now rewrite app_nil_r.
  - cbn [Js.forEach firstEncounter List.filter]. rewrite IH.
    unfold setAdd. cbn [snd]. fold (mem c seen).
    destruct (mem c seen) eqn:Hc; cbn [negb].
    + now rewrite filter_notin_after.
    + now rewrite filter_notin_snoc, <- app_assoc.
Qed.

Lemma collect_forEach (messages : list ChatMessage.t)
    (st : list string * list Severity) :
  Js.forEach messages ChatSession.collect st =
  (Js.forEach (flat_map messageSymptoms messages) setAdd (fst st),
   snd st ++ flat_map messageSeverity messages).
Proof.
  revert st. induction messages as [|msg l IH]; intros [syms sevs].
  - simpl. now rewrite app_nil_r.
  - cbn [Js.forEach flat_map]. rewrite IH. rewrite forEach_app.
    unfold ChatSession.collect, messageSymptoms, messageSeverity, Js.push.
    cbn [fst snd].
    destruct (ChatMessage.metadata msg) as [md|]; cbn [Js.forEach app];
      [|reflexivity].
    destruct (Metadata.identifiedSymptoms md);
      destruct (Metadata.severity md); cbn [Js.forEach app];
      rewrite <- ?app_assoc, ?app_nil_r; reflexivity.
Qed.

Lemma includesTier_In (severities : list Severity) (t : Severity) :
  includesTier severities t = true <-> In t severities.
Proof.
  unfold includesTier. rewrite existsb_exists. split.
  - intros [x [Hx E]]. apply Severity_eqb_eq in E. now subst.
  - intros H. exists t. split; trivial. now apply Severity_eqb_eq.
Qed.

Lemma messageSeverity_In (messages : list ChatMessage.t) (sev : Severity) :
  In sev (flat_map messageSeverity messages) <->
  exists msg md,
    In msg messages /\ ChatMessage.metadata msg = Some md /\
    Metadata.severity md = Some sev.
Proof.
  rewrite in_flat_map. unfold messageSeverity. split.
  - intros [msg [Hin H]]. destruct (ChatMessage.metadata msg) as [md|] eqn:E;
      [|contradiction].
    destruct (Metadata.severity md) as [s|] eqn:Es; [|contradiction].
    destruct H as [->|[]]. now exists msg, md.
  - intros [msg [md [Hin [E Es]]]]. exists msg. split; trivial.
    rewrite E, Es. now left.
Qed.

(** X19: the overall severity of a session is the highest tier recorded
    with any of its messages, and "low" when none is recorded. *)
Theorem X19_session_overall_severity (messages : list ChatMessage.t) :
  (forall msg md sev,
     In msg messages -> ChatMessage.metadata msg = Some md ->
     Metadata.severity md = Some sev ->
     tierLe sev
       (ChatSession.overallSeverity (ChatSession.analyzeSymptoms messages))) /\
  (ChatSession.overallSeverity (ChatSession.analyzeSymptoms messages) = Low \/
   exists msg md,
     In msg messages /\ ChatMessage.metadata msg = Some md /\
     Metadata.severity md
     = Some (ChatSession.overallSeverity
               (ChatSession.analyzeSymptoms messages))).
Proof.
  unfold ChatSession.analyzeSymptoms. cbn [ChatSession.overallSeverity].
  rewrite collect_forEach. cbn [snd app].
  set (sevs := flat_map messageSeverity messages).
  pose proof (includesTier_In sevs) as HI.
  pose proof (messageSeverity_In messages) as HM. fold sevs in HM.
  split.
  - intros msg md sev Hin E Es.
    assert (Hs : In sev sevs) by (apply HM; now exists msg, md).
    apply HI in Hs. unfold tierLe.
    destruct sev; rewrite ?Hs;
      repeat match goal with
             | |- context [includesTier sevs ?t] =>
                 destruct (includesTier sevs t)
             end;
      simpl; lia.
  - destruct (includesTier sevs Emergency) eqn:E1;
      [right; apply HM, HI, E1|].
    destruct (includesTier sevs High) eqn:E2;
      [right; apply HM, HI, E2|].
    destruct (includesTier sevs Moderate) eqn:E3;
      [right; apply HM, HI, E3|].
    now left.
Qed.

(** X20: the symptoms of a session are the distinct symptoms identified in
    its messages, each once, in the order of first mention. *)
Theorem X20_session_symptoms (messages : list ChatMessage.t) :
  ChatSession.symptoms (ChatSession.analyzeSymptoms messages)
    = firstEncounter (flat_map messageSymptoms messages) /\
  NoDup (ChatSession.symptoms (ChatSession.analyzeSymptoms messages)) /\
  (forall s,
     In s (ChatSession.symptoms (ChatSession.analyzeSymptoms messages)) <->
     exists msg, In msg messages /\ In s (messageSymptoms msg)).
Proof.
  assert (H : ChatSession.symptoms (ChatSession.analyzeSymptoms messages)
              = firstEncounter (flat_map messageSymptoms messages)).
  { unfold ChatSession.analyzeSymptoms. cbn [ChatSession.symptoms].
    rewrite collect_forEach. cbn [fst]. rewrite setAdd_forEach. simpl.
    induction (firstEncounter _) as [|x l IH]; simpl; [|rewrite IH];
      reflexivity. }
  rewrite H. split; [reflexivity|]. split.
  - apply firstEncounter_NoDup.
  - intros s. rewrite firstEncounter_In. apply in_flat_map.
Qed.

Lemma sliceFrom_split {A : Type} (l : list A) (start : Z) :
  exists k : nat,
    sliceFrom l start = skipn k l /\
    Z.of_nat k =
      (if start <? 0 then Z.max (Z.of_nat (length l) + start) 0
       else Z.min start (Z.of_nat (length l))).
Proof.
  unfold sliceFrom. eexists. split; [reflexivity|].
  destruct (start <? 0) eqn:E; lia.
Qed.

(** X21: the conversation context is made of the last [limit] messages
    (all of them when there are fewer) for a positive [limit]; a [limit] of
    0 keeps every message, not none; a negative one drops that many from
    the front. *)
Theorem X21_conversation_context (messages : list ChatMessage.t)
    (limit : Z) :
  exists older recent,
    messages = older ++ recent /\
    ChatSession.getConversationContext messages limit
      = map contextOf recent /\
    (0 < limit ->
     Z.of_nat (length recent) = Z.min limit (Z.of_nat (length messages))) /\
    (limit = 0 -> recent = messages) /\
    (limit < 0 ->
     Z.of_nat (length older) = Z.min (- limit) (Z.of_nat (length messages))).
Proof.
  unfold ChatSession.getConversationContext.
  destruct (sliceFrom_split messages (- limit)) as [k [Hk Hz]].
  exists (firstn k messages), (skipn k messages).
  split; [symmetry; apply firstn_skipn|].
  split; [now rewrite Hk|].
  rewrite length_skipn, length_firstn.
  destruct (Z.ltb_spec (- limit) 0); repeat split; intros; try lia.
  assert (k = 0%nat) by lia. now subst k.
Qed.

(** ** The health profile model *)

Section ForEachPush.
Context {A B : Type}.

Lemma forEach_push_map (f : A -> B) (l : list A) (acc : list B) :
  Js.forEach l (fun acc x => (tt, Js.push acc (f x))) acc = acc ++ map f l.
Proof.
  revert acc. induction l as [|x l IH]; intros acc; simpl.
  - now rewrite app_nil_r.
  - rewrite IH. unfold Js.push. now rewrite <- app_assoc.
Qed.

Lemma forEach_push_filter (p : A -> bool) (f : A -> B) (l : list A)
    (acc : list B) :
  Js.forEach l (fun acc x => (tt, if p x then Js.push acc (f x) else acc)) acc
  = acc ++ map f (List.filter p l).
Proof.
  revert acc. induction l as [|x l IH]; intros acc; simpl.
  - now rewrite app_nil_r.
  - rewrite IH. unfold Js.push. destruct (p x); simpl; trivial.
    now rewrite <- app_assoc.
Qed.
End ForEachPush.

Lemma checkMedicationCompatibility_conflicts (this : ProfileDoc.t)
    (medicationName : string) :
  conflicts (checkMedicationCompatibility this medicationName) =
  map (fun med =>
         MedicationConflict (Medication.name med) "check-required"
           "Consult healthcare provider")
      (ProfileDoc.currentMedications this)
  ++ map (fun allergy =>
            AllergyConflict (Allergy.allergen allergy)
              (Allergy.severity allergy) "DO NOT USE - Known allergy")
       (List.filter
          (fun allergy =>
             Js.includes (Js.toLowerCase medicationName)
               (Js.toLowerCase (Allergy.allergen allergy)))
          (ProfileDoc.allergies this)).
Proof.
  unfold checkMedicationCompatibility. cbn [conflicts].
  rewrite forEach_push_map. cbn [app].
  apply (forEach_push_filter
           (fun allergy =>
              Js.includes (Js.toLowerCase medicationName)
                (Js.toLowerCase (Allergy.allergen allergy)))).
Qed.

(** X22: a medication is reported safe exactly when the profile lists no
    current medication at all and no allergy whose allergen occurs in the
    medication name, letter case aside; the conflicts are one per current
    medication, then one per such allergy. *)
Theorem X22_medication_safe_iff (this : ProfileDoc.t)
    (medicationName : string) :
  (safe (checkMedicationCompatibility this medicationName) = true <->
   ProfileDoc.currentMedications this = [] /\
   forall allergy,
     In allergy (ProfileDoc.allergies this) ->
     ~ allergenIn medicationName allergy) /\
  length (conflicts (checkMedicationCompatibility this medicationName))
  = (length (ProfileDoc.currentMedications this)
     + length (List.filter
                 (fun allergy =>
                    Js.includes (Js.toLowerCase medicationName)
                      (Js.toLowerCase (Allergy.allergen allergy)))
                 (ProfileDoc.allergies this)))%nat.
Proof.
  pose proof (checkMedicationCompatibility_conflicts this medicationName) as Hc.
  assert (Hs : safe (checkMedicationCompatibility this medicationName)
               = Nat.eqb
                   (length (conflicts
                      (checkMedicationCompatibility this medicationName))) 0)
    by reflexivity.
  rewrite Hs, Hc, length_app, !length_map. split; [|reflexivity].
  rewrite Nat.eqb_eq. unfold allergenIn.
  set (matching := List.filter _ _).
  assert (Hm : matching = [] <->
               forall allergy,
                 In allergy (ProfileDoc.allergies this) ->
                 ~ Substring (Js.toLowerCase (Allergy.allergen allergy))
                     (Js.toLowerCase medicationName)).
  { unfold matching. split.
    - intros H allergy Hin Hsub. apply includes_spec in Hsub.
      assert (Hf : In allergy (List.filter
                 (fun allergy =>
                    Js.includes (Js.toLowerCase medicationName)
                      (Js.toLowerCase (Allergy.allergen allergy)))
                 (ProfileDoc.allergies this)))
        by (apply filter_In; auto).
      rewrite H in Hf. contradiction.
    - intros H. destruct (List.filter _ _) as [|a rest] eqn:E; trivial.
      assert (Hin : In a (a :: rest)) by now left.
      rewrite <- E in Hin. apply filter_In in Hin. destruct Hin as [Hin Hi].
      apply includes_spec in Hi. now apply H in Hi. }
  rewrite <- Hm. split.
  - intros H. split; apply length_zero_iff_nil; lia.
  - intros [-> ->]. reflexivity.
Qed.

(** ** The health score *)

Lemma healthScore_formula (hp : ProfileDoc.t) :
  exists base,
    base <= 100 /\
    (forall conds,
       healthScore
         (Some (ProfileDoc.mk (ProfileDoc.bmi hp) (ProfileDoc.lifestyle hp)
                  conds (ProfileDoc.allergies hp)
                  (ProfileDoc.currentMedications hp)))
       = Z.max 0 (base - 5 * Z.of_nat (length conds))).
Proof.
  exists (100
          - (match ProfileDoc.bmi hp with
             | Some bmi =>
                 if (truthyNumber (Some bmi)
                     && (numLt bmi (37 # 2) || numLt (30 # 1) bmi))%bool
                 then 10 else 0
             | None => 0
             end)
          - (if String.eqb (Lifestyle.smokingStatus (ProfileDoc.lifestyle hp))
                  "current" then 15 else 0)
          - (if String.eqb
                  (Lifestyle.alcoholConsumption (ProfileDoc.lifestyle hp))
                  "heavy" then 10 else 0)
          - (if String.eqb
                  (Lifestyle.exerciseFrequency (ProfileDoc.lifestyle hp))
                  "sedentary" then 10 else 0)).
  unfold healthScore. cbn [ProfileDoc.bmi ProfileDoc.lifestyle
    ProfileDoc.knownConditions].
  destruct (ProfileDoc.bmi hp) as [bmi|];
    [destruct (truthyNumber (Some bmi)
               && (numLt bmi (37 # 2) || numLt (30 # 1) bmi))%bool|];
    destruct (String.eqb (Lifestyle.smokingStatus _) _);
    destruct (String.eqb (Lifestyle.alcoholConsumption _) _);
    destruct (String.eqb (Lifestyle.exerciseFrequency _) _);
    (split; [lia|]); intros [|c conds]; cbn [length]; lia.
Qed.

(** X23: the health score lies between 0 and 100, is 100 without a
    profile, and each further known condition costs 5 points until the
    score is 0. *)
Theorem X23_healthScore_bounds (healthProfile : option ProfileDoc.t) :
  0 <= healthScore healthProfile <= 100 /\
  healthScore None = 100 /\
  (forall hp c,
     healthScore (Some (withCondition hp c))
     = Z.max 0 (healthScore (Some hp) - 5)).
Proof.
  split; [unfold healthScore; lia|]. split; [reflexivity|].
  intros hp c. destruct (healthScore_formula hp) as [base [Hb Hf]].
  unfold withCondition. rewrite Hf.
  destruct hp as [bmi ls conds al meds]. cbn [ProfileDoc.bmi
    ProfileDoc.lifestyle ProfileDoc.allergies ProfileDoc.currentMedications
    ProfileDoc.knownConditions] in *.
  rewrite Hf, length_app. cbn [length]. lia.
Qed.

(** ** The risk summary *)

Lemma numLt_spec (a b : Q) : numLt a b = true <-> (a < b)%Q.
Proof.
  unfold numLt. rewrite negb_true_iff. split.
  - intros H. apply Qnot_le_lt. intros Hle.
    apply Qle_bool_iff in Hle. congruence.
  - intros H. destruct (Qle_bool b a) eqn:E; trivial.
    apply Qle_bool_iff in E. now apply Qlt_not_le in H.
Qed.

Lemma numGe_spec (a b : Q) : numGe a b = true <-> (b <= a)%Q.
Proof. apply Qle_bool_iff. Qed.

Lemma truthyNumber_spec (q : Q) :
  truthyNumber (Some q) = true <-> ~ (q == 0)%Q.
Proof.
  unfold truthyNumber. rewrite negb_true_iff. split.
  - intros H Heq. apply Qeq_bool_iff in Heq. congruence.
  - intros H. destruct (Qeq_bool q (0 # 1)) eqn:E; trivial.
    apply Qeq_bool_iff in E. contradiction.
Qed.

Lemma bmiFlagged_spec (q : Q) :
  bmiFlagged (Some q) <->
  truthyNumber (Some q) = true /\
  (numLt q (37 # 2) = true \/ numGe q (25 # 1) = true).
Proof.
  unfold bmiFlagged. now rewrite truthyNumber_spec, numLt_spec, numGe_spec.
Qed.

Lemma numGe_30_25 (q : Q) :
  numGe q (30 # 1) = true -> numGe q (25 # 1) = true.
Proof.
  rewrite !numGe_spec. intros H.
  apply (Qle_trans _ (30 # 1)); [discriminate | exact H].
Qed.

Lemma numLt_30_25 (q : Q) :
  numLt (30 # 1) q = true -> numGe q (25 # 1) = true.
Proof.
  rewrite numLt_spec, numGe_spec. intros H. apply Qlt_le_weak in H.
  apply (Qle_trans _ (30 # 1)); [discriminate | exact H].
Qed.

Lemma riskSummary_split (this : ProfileDoc.t) :
  exists pre,
    getHealthRiskSummary this
      = pre ++ map conditionRisk (ProfileDoc.knownConditions this) /\
    (length pre <= 4)%nat /\
    (pre = [] <->
     ~ bmiFlagged (ProfileDoc.bmi this) /\
     Lifestyle.smokingStatus (ProfileDoc.lifestyle this) <> "current" /\
     Lifestyle.alcoholConsumption (ProfileDoc.lifestyle this) <> "heavy" /\
     Lifestyle.exerciseFrequency (ProfileDoc.lifestyle this) <> "sedentary").
Proof.
  unfold getHealthRiskSummary, Js.push.
  assert (Hconds : forall pre,
            match ProfileDoc.knownConditions this with
            | [] => pre
            | _ :: _ =>
                Js.forEach (ProfileDoc.knownConditions this)
                  (fun risks condition =>
                     (tt, risks ++
                          [{| factor := KnownCondition.name condition;
                              level := KnownCondition.severity condition |}]))
                  pre
            end = pre ++ map conditionRisk (ProfileDoc.knownConditions this)).
  { intros pre. destruct (ProfileDoc.knownConditions this) as [|c cs] eqn:E.
    - simpl. now rewrite app_nil_r.
    - rewrite <- E. apply (forEach_push_map conditionRisk). }
  rewrite Hconds. clear Hconds.
  pose proof (String.eqb_neq
                (Lifestyle.smokingStatus (ProfileDoc.lifestyle this))
                "current") as Hs.
  pose proof (String.eqb_neq
                (Lifestyle.alcoholConsumption (ProfileDoc.lifestyle this))
                "heavy") as Ha.
  pose proof (String.eqb_neq
                (Lifestyle.exerciseFrequency (ProfileDoc.lifestyle this))
                "sedentary") as He.
  destruct (ProfileDoc.bmi this) as [q|].
  - pose proof (bmiFlagged_spec q) as Hf.
    pose proof (numGe_30_25 q) as H30.
    change (numLt q (30 # 1)) with (negb (numGe q (30 # 1))).
    destruct (truthyNumber (Some q)); destruct (numLt q (37 # 2));
      destruct (numGe q (30 # 1)); destruct (numGe q (25 # 1));
      cbn [andb negb];
      destruct (String.eqb (Lifestyle.smokingStatus _) _);
      destruct (String.eqb (Lifestyle.alcoholConsumption _) _);
      destruct (String.eqb (Lifestyle.exerciseFrequency _) _);
      eexists; (split; [reflexivity|]);
      (split; [simpl; lia|]); cbn [app];
      (split; [try discriminate; intros _ | intros [Hn [? [? ?]]]]);
      try reflexivity; intuition congruence.
  - destruct (String.eqb (Lifestyle.smokingStatus _) _);
      destruct (String.eqb (Lifestyle.alcoholConsumption _) _);
      destruct (String.eqb (Lifestyle.exerciseFrequency _) _);
      eexists; (split; [reflexivity|]);
      (split; [simpl; lia|]); cbn [app];
      (split; [try discriminate; intros _ | intros [Hn [? [? ?]]]]);
      try reflexivity; simpl; intuition congruence.
Qed.

Lemma unflagged_no_deduction (q : Q) :
  ~ bmiFlagged (Some q) ->
  (truthyNumber (Some q)
   && (numLt q (37 # 2) || numLt (30 # 1) q))%bool = false.
Proof.
  rewrite bmiFlagged_spec. pose proof (numLt_30_25 q) as H.
  destruct (truthyNumber (Some q)); destruct (numLt q (37 # 2));
    destruct (numLt (30 # 1) q); destruct (numGe q (25 # 1));
    simpl; intuition congruence.
Qed.

(** X24: the risk summary ends with one entry per known condition, in
    order, after at most 4 entries for body-mass index and lifestyle; it is
    empty exactly when there is no known condition, the index is not in a
    reported range and the lifestyle has none of the three reported habits;
    and a profile with an empty risk summary has health score 100. *)
Theorem X24_risk_summary (this : ProfileDoc.t) :
  (exists pre,
     getHealthRiskSummary this
       = pre ++ map conditionRisk (ProfileDoc.knownConditions this) /\
     (length pre <= 4)%nat) /\
  (getHealthRiskSummary this = [] <->
   ProfileDoc.knownConditions this = [] /\
   ~ bmiFlagged (ProfileDoc.bmi this) /\
   Lifestyle.smokingStatus (ProfileDoc.lifestyle this) <> "current" /\
   Lifestyle.alcoholConsumption (ProfileDoc.lifestyle this) <> "heavy" /\
   Lifestyle.exerciseFrequency (ProfileDoc.lifestyle this) <> "sedentary") /\
  (getHealthRiskSummary this = [] -> healthScore (Some this) = 100).
Proof.
  destruct (riskSummary_split this) as [pre [Hr [Hlen Hpre]]].
  assert (Hnil : getHealthRiskSummary this = [] <->
                 ProfileDoc.knownConditions this = [] /\
                 ~ bmiFlagged (ProfileDoc.bmi this) /\
                 Lifestyle.smokingStatus (ProfileDoc.lifestyle this)
                   <> "current" /\
                 Lifestyle.alcoholConsumption (ProfileDoc.lifestyle this)
                   <> "heavy" /\
                 Lifestyle.exerciseFrequency (ProfileDoc.lifestyle this)
                   <> "sedentary").
  { rewrite Hr. split.
    - intros H. apply app_eq_nil in H. destruct H as [Hp Hc].
      apply map_eq_nil in Hc. split; trivial. now apply Hpre.
    - intros [Hc H]. apply Hpre in H. now rewrite H, Hc. }
  split; [now exists pre|]. split; [exact Hnil|].
  intros H. apply Hnil in H. destruct H as [Hc [Hb [Hs [Ha He]]]].
  unfold healthScore. rewrite Hc.
  apply String.eqb_neq in Hs, Ha, He. rewrite Hs, Ha, He.
  destruct (ProfileDoc.bmi this) as [q|]; [|reflexivity].
  now rewrite (unflagged_no_deduction q Hb).
Qed.

(** ** Normalization *)

Section NormalizeFacts.

Lemma lowerChar_idem (c : ascii) :
  Js.lowerChar (Js.lowerChar c) = Js.lowerChar c.
Proof.
  destruct c as [b0 b1 b2 b3 b4 b5 b6 b7].
  destruct b0, b1, b2, b3, b4, b5, b6, b7; reflexivity.
Qed.

Lemma isWhiteSpace_lowerChar (c : ascii) :
  Js.isWhiteSpace (Js.lowerChar c) = Js.isWhiteSpace c.
Proof.
  destruct c as [b0 b1 b2 b3 b4 b5 b6 b7].
  destruct b0, b1, b2, b3, b4, b5, b6, b7; reflexivity.
Qed.

Lemma toLowerCase_idem (s : string) :
  Js.toLowerCase (Js.toLowerCase s) = Js.toLowerCase s.
Proof.
  induction s as [|c s IH]; simpl; [reflexivity|].
  now rewrite lowerChar_idem, IH.
Qed.

Lemma toLowerCase_trimStart (s : string) :
  Js.toLowerCase (Js.trimStart s) = Js.trimStart (Js.toLowerCase s).
Proof.
  induction s as [|c s IH]; simpl; [reflexivity|].
  rewrite isWhiteSpace_lowerChar. now destruct (Js.isWhiteSpace c).
Qed.

Lemma toLowerCase_trimEnd (s : string) :
  Js.toLowerCase (Js.trimEnd s) = Js.trimEnd (Js.toLowerCase s).
Proof.
  induction s as [|c s IH]; simpl; [reflexivity|].
  rewrite <- IH, isWhiteSpace_lowerChar.
  destruct (Js.trimEnd s); simpl; trivial.
  now destruct (Js.isWhiteSpace c).
Qed.

Lemma trimStart_noLeadingSpace (s : string) : noLeadingSpace (Js.trimStart s).
Proof.
  induction s as [|c s IH]; simpl; trivial.
  destruct (Js.isWhiteSpace c) eqn:E; trivial.
Qed.

Lemma trimStart_fixed (s : string) : noLeadingSpace s -> Js.trimStart s = s.
Proof. destruct s as [|c s]; simpl; trivial. now intros ->. Qed.

Lemma trimEnd_noLeadingSpace (s : string) :
  noLeadingSpace s -> noLeadingSpace (Js.trimEnd s).
Proof.
  destruct s as [|c s]; simpl; trivial. intros H. rewrite H.
  now destruct (Js.trimEnd s).
Qed.

Lemma trimEnd_idem (s : string) : Js.trimEnd (Js.trimEnd s) = Js.trimEnd s.
Proof.
  induction s as [|c s IH]; simpl; [reflexivity|].
  destruct (Js.trimEnd s) as [|d t] eqn:E.
  - destruct (Js.isWhiteSpace c) eqn:Ec; simpl; trivial. now rewrite Ec.
  - change (Js.trimEnd (String c (String d t)))
      with (match Js.trimEnd (String d t) with
            | EmptyString =>
                if Js.isWhiteSpace c then EmptyString else String c EmptyString
            | String x u => String c (String x u)
            end).
    now rewrite IH.
Qed.

Lemma normalizePhrase_idem (s : string) :
  normalizePhrase (normalizePhrase s) = normalizePhrase s.
Proof.
  unfold normalizePhrase, Js.trim.
  rewrite toLowerCase_trimEnd, toLowerCase_trimStart, toLowerCase_idem.
  rewrite (trimStart_fixed (Js.trimEnd _)).
  - apply trimEnd_idem.
  - apply trimEnd_noLeadingSpace, trimStart_noLeadingSpace.
Qed.

End NormalizeFacts.

Lemma lowerChar_ascii (c : ascii) :
  Nat.ltb (nat_of_ascii (Js.lowerChar c)) 128 = Nat.ltb (nat_of_ascii c) 128.
Proof.
  destruct c as [b0 b1 b2 b3 b4 b5 b6 b7].
  destruct b0, b1, b2, b3, b4, b5, b6, b7; reflexivity.
Qed.

Lemma toLowerCase_asciiOnly (s : string) :
  asciiOnly (Js.toLowerCase s) = asciiOnly s.
Proof.
  induction s as [|c s IH]; simpl; [reflexivity|].
  now rewrite lowerChar_ascii, IH.
Qed.

Lemma trimStart_asciiOnly (s : string) :
  asciiOnly s = true -> asciiOnly (Js.trimStart s) = true.
Proof.
  induction s as [|c s IH]; simpl; trivial.
  intros H. destruct (Js.isWhiteSpace c); trivial.
  apply andb_true_iff in H. now apply IH.
Qed.

Lemma trimEnd_asciiOnly (s : string) :
  asciiOnly s = true -> asciiOnly (Js.trimEnd s) = true.
Proof.
  induction s as [|c s IH]; simpl; trivial.
  intros H. apply andb_true_iff in H. destruct H as [Hc Hs].
  specialize (IH Hs). destruct (Js.trimEnd s) as [|d t].
  - destruct (Js.isWhiteSpace c); simpl; trivial. now rewrite Hc.
  - change (asciiOnly (String c (String d t)))
      with (Nat.ltb (nat_of_ascii c) 128 && asciiOnly (String d t))%bool.
    now rewrite Hc, IH.
Qed.

Lemma normalizePhrase_asciiOnly (s : string) :
  asciiOnly s = true -> asciiOnly (normalizePhrase s) = true.
Proof.
  intros H. unfold normalizePhrase, Js.trim.
  apply trimEnd_asciiOnly, trimStart_asciiOnly.
  now rewrite toLowerCase_asciiOnly.
Qed.

(** X25: for phrases of ASCII characters, the identified symptoms of a
    result are the normalized phrases, which are ASCII again; normalizing
    them again changes nothing, and analysing them again gives the very same
    result. *)
Theorem X25_analysis_of_identified_symptoms (symptoms : list string)
    (hp : option HealthProfile) (history : list Message) :
  (forall s, In s symptoms -> asciiOnly s = true) ->
  Result.identifiedSymptoms (analyzeSymptoms symptoms hp history)
    = normalize symptoms /\
  (forall q, In q (normalize symptoms) -> asciiOnly q = true) /\
  normalize (normalize symptoms) = normalize symptoms /\
  analyzeSymptoms
    (Result.identifiedSymptoms (analyzeSymptoms symptoms hp history))
    hp history
  = analyzeSymptoms symptoms hp history.
Proof.
  intros Hascii.
  assert (Hid : Result.identifiedSymptoms (analyzeSymptoms symptoms hp history)
                = normalize symptoms).
  { unfold analyzeSymptoms.
    now destruct (checkEmergency (normalize symptoms)). }
  assert (Hn : normalize (normalize symptoms) = normalize symptoms).
  { unfold normalize. rewrite map_map. apply map_ext.
    intros s. apply normalizePhrase_idem. }
  split; [exact Hid|]. split.
  - intros q Hq. unfold normalize in Hq. apply in_map_iff in Hq.
    destruct Hq as [s [<- Hs]]. apply normalizePhrase_asciiOnly.
    now apply Hascii.
  - split; [exact Hn|].
    rewrite Hid. unfold analyzeSymptoms. now rewrite Hn.
Qed.

Lemma X25_analysis_of_identified_symptoms_witness :
  (forall s, In s ["  High FEVER "; "Cough"] -> asciiOnly s = true) /\
  analyzeSymptoms
    (Result.identifiedSymptoms
       (analyzeSymptoms ["  High FEVER "; "Cough"] None []))
    None []
  = analyzeSymptoms ["  High FEVER "; "Cough"] None [].
Proof.
  assert (H : forall s, In s ["  High FEVER "; "Cough"] ->
                        asciiOnly s = true).
  { intros s [<-|[<-|[]]]; reflexivity. }
  split; [exact H|].
  exact (proj2 (proj2 (proj2
    (X25_analysis_of_identified_symptoms ["  High FEVER "; "Cough"]
       None [] H)))).
Defined.
